(** * delay-build: the single-slot delayed-webhook scheduler

    A shallow embedding of [src/index.ts] (a Cloudflare Worker with one
    Durable Object) and the properties of its scheduling state machine.

    The file follows the source top-down:
    - JavaScript values the code manipulates (numbers, strings, thrown
      values) and the built-ins it calls;
    - the helpers [toIso], [truncateError], [getRetryDelayMs];
    - the Durable Object as a state-and-exception monad over its storage
      slot, its single alarm and the outbound requests it performs;
    - the two revisions of the object, [ModeA] (target URL supplied per
      request) and [ModeB] (target URL taken from the deployment);
    - the HTTP front door of [ModeA];
    - the theorems. *)

From Stdlib Require Import ZArith QArith Qround Lia Bool List.
From Stdlib Require Import Ascii String DecimalString.
From stdpp Require Import base option gmap strings.

Local Open Scope string_scope.
Local Open Scope Z_scope.

(** ** JavaScript numbers

    Every number the scheduler stores is an integral count of milliseconds
    or of attempts, or [NaN].  [Num z] is the double holding the integer
    [z]; the arithmetic below is the exact one.  Doubles perform it as long
    as every value stays within the safe integers, up to 2^53 - 1; beyond,
    JavaScript rounds sums and products and the model does not.  The
    statements about a delay chosen by a caller or by the deployment are
    therefore made for delays within that range, which [LAST_ALARM] and
    [MAX_SAFE_INTEGER] below bound. *)

Inductive number : Type :=
  | NaN
  | Num (z : Z).

#[global] Instance number_eq_dec : EqDecision number.
Proof. solve_decision. Defined.

(** [a + b] *)
Definition add (a b : number) : number :=
  match a, b with
  | Num x, Num y => Num (x + y)
  | _, _ => NaN
  end.

(** [ToNumber] on a possibly-[undefined] number: [undefined] becomes [NaN]. *)
Definition ToNumber (v : option number) : number :=
  match v with
  | Some n => n
  | None => NaN
  end.

(** [v ?? d] *)
Definition nullish {A : Type} (v : option A) (d : A) : A :=
  match v with
  | Some a => a
  | None => d
  end.

(** [!value] for [value?: number]: [undefined], [0] and [NaN] are falsy. *)
Definition falsy (value : option number) : bool :=
  match value with
  | None => true
  | Some NaN => true
  | Some (Num z) => z =? 0
  end.

(** [!value] for [value?: string]: [undefined] and the empty string. *)
Definition falsy_string (value : option string) : bool :=
  match value with
  | None => true
  | Some s => String.eqb s ""
  end.

(** [Math.round] on a rational: the nearest integer, ties towards
    [+Infinity]. *)
Definition Math_round (q : Q) : Z := Qfloor (q + (1 # 2))%Q.

(** [Math.round(x * k)] and [Math.round(x / k)] for a number [x] and a
    positive integer literal [k]. *)
Definition round_times (x : number) (k : Z) : number :=
  match x with
  | NaN => NaN
  | Num z => Num (Math_round (inject_Z z * inject_Z k)%Q)
  end.

Definition round_div (x : number) (k : Z) : number :=
  match x with
  | NaN => NaN
  | Num z => Num (Math_round (inject_Z z / inject_Z k)%Q)
  end.

(** ** Strings

    A [string] stands for a JavaScript string, one character per UTF-16
    code unit, so that [String.length] is [.length]. *)

(** [s.slice(0, n)] for [n >= 0]. *)
Definition slice0 (n : nat) (s : string) : string := substring 0 n s.

(** Decimal rendering of an integer, as template literals do. *)
Definition decimal (z : Z) : string := NilZero.string_of_int (Z.to_int z).

(** [String(n).padStart(width, "0")] for a non-negative [n]. *)
Fixpoint zeros (k : nat) : string :=
  match k with
  | O => ""
  | S k' => String "0" (zeros k')
  end.

Definition pad (width : nat) (n : Z) : string :=
  let digits := decimal n in
  zeros (width - String.length digits) ++ digits.

(** ** Thrown values

    What a [catch] clause can receive.  A value that is neither an [Error]
    nor a string is represented by what [JSON.stringify] does with it: it
    yields a text, yields [undefined] (for [undefined], functions and
    symbols), or throws (cyclic structures, BigInt). *)

Inductive Stringified : Type :=
  | JsonText (text : string)
  | JsonUndefined
  | JsonThrows.

Inductive JsValue : Type :=
  | JsError (message : string)
  | JsString (s : string)
  | JsOther (json : Stringified).

(** [undefined] as a thrown value. *)
Definition undefined : JsValue := JsOther JsonUndefined.

(** The two errors raised by built-ins on the paths below. *)
Definition TypeError_length : JsValue :=
  JsError "Cannot read properties of undefined (reading 'length')".
Definition TypeError_stringify : JsValue :=
  JsError "Converting circular structure to JSON".
Definition RangeError_time : JsValue :=
  JsError "Invalid time value".

(** The completion of an evaluation: a value or a thrown value. *)
Inductive Completion (A : Type) : Type :=
  | Return (a : A)
  | Throw (e : JsValue).
Arguments Return {A} a.
Arguments Throw {A} e.

(** ** Dates *)

(** The largest time value of a [Date], in milliseconds from the epoch. *)
Definition MAX_TIME : Z := 8640000000000000.

(** [new Date(value)]: the time value, clipped to [NaN] out of range. *)
Definition TimeClip (value : number) : number :=
  match value with
  | NaN => NaN
  | Num z => if Z.abs z <=? MAX_TIME then Num z else NaN
  end.

(** Civil date of a day count from 1970-01-01 (proleptic Gregorian). *)
Definition civil_from_days (days : Z) : Z * Z * Z :=
  let z := days + 719468 in
  let era := z / 146097 in
  let doe := z - era * 146097 in
  let yoe := (doe - doe / 1460 + doe / 36524 - doe / 146096) / 365 in
  let doy := doe - (365 * yoe + yoe / 4 - yoe / 100) in
  let mp := (5 * doy + 2) / 153 in
  let d := doy - (153 * mp + 2) / 5 + 1 in
  let m := if mp <? 10 then mp + 3 else mp - 9 in
  let y := yoe + era * 400 + (if m <=? 2 then 1 else 0) in
  (y, m, d).

Definition iso_year (y : Z) : string :=
  if (0 <=? y) && (y <=? 9999) then pad 4 y
  else if y <? 0 then "-" ++ pad 6 (- y)
  else "+" ++ pad 6 y.

(** The text of [toISOString] for a valid time value. *)
Definition iso_format (t : Z) : string :=
  let days := t / 86400000 in
  let ms := t mod 86400000 in
  let '(y, m, d) := civil_from_days days in
  iso_year y ++ "-" ++ pad 2 m ++ "-" ++ pad 2 d ++ "T"
    ++ pad 2 (ms / 3600000) ++ ":" ++ pad 2 (ms / 60000 mod 60) ++ ":"
    ++ pad 2 (ms / 1000 mod 60) ++ "." ++ pad 3 (ms mod 1000) ++ "Z".

(** [new Date(value).toISOString()]: a [RangeError] on an invalid date. *)
Definition toISOString (value : number) : Completion string :=
  match TimeClip value with
  | NaN => Throw RangeError_time
  | Num t => Return (iso_format t)
  end.

(** ** Helpers of [index.ts] *)

(** [function toIso(value?: number): string | undefined] *)
Definition toIso (value : option number) : Completion (option string) :=
  if falsy value then Return None
  else match toISOString (ToNumber value) with
       | Return s => Return (Some s)
       | Throw e => Throw e
       end.

(** [JSON.stringify(error)] on a value that is neither [Error] nor string. *)
Definition JSON_stringify (json : Stringified) : Completion (option string) :=
  match json with
  | JsonText text => Return (Some text)
  | JsonUndefined => Return None
  | JsonThrows => Throw TypeError_stringify
  end.

(** [function truncateError(error: unknown): string] *)
Definition truncateError (error : JsValue) : Completion string :=
  let message : Completion (option string) :=
    match error with
    | JsError message => Return (Some message)
    | JsString s => Return (Some s)
    | JsOther json => JSON_stringify json
    end in
  match message with
  | Throw e => Throw e
  | Return None => Throw TypeError_length
  | Return (Some message) =>
      if (500 <? String.length message)%nat
      then Return (slice0 497 message ++ "...")
      else Return message
  end.

(** [private getRetryDelayMs(retryCount: number): number].  Indexing the
    table outside [0..2], or with [NaN], yields [undefined]. *)
Definition retryWindowsMs : list Z := [60000; 120000; 300000].

Definition Math_min (a : number) (b : Z) : number :=
  match a with
  | NaN => NaN
  | Num x => Num (Z.min x b)
  end.

Definition index_table (table : list Z) (i : number) : option number :=
  match i with
  | NaN => None
  | Num z => if z <? 0 then None else Num <$> nth_error table (Z.to_nat z)
  end.

Definition getRetryDelayMs (retryCount : number) : option number :=
  index_table retryWindowsMs
    (Math_min (add retryCount (Num (-1)))
              (Z.of_nat (List.length retryWindowsMs) - 1)).

(** [Number.parseInt(text, 10)]: leading white space (among the code units
    below 256), an optional sign, then the longest run of decimal digits;
    [NaN] when there is no digit.  The value is the exact integer of the
    digit run: JavaScript rounds a run above 2^53 to the nearest double and
    reads one past the range of doubles as [Infinity], which the model
    does not; whether there is a digit, and the sign, are the same. *)
Definition isWhiteSpace (c : ascii) : bool :=
  let n := Z.of_nat (nat_of_ascii c) in
  ((9 <=? n) && (n <=? 13)) || (n =? 32) || (n =? 160).

Fixpoint trimStart (s : string) : string :=
  match s with
  | String c rest => if isWhiteSpace c then trimStart rest else s
  | EmptyString => s
  end.

Definition digit (c : ascii) : option Z :=
  let n := Z.of_nat (nat_of_ascii c) in
  if (48 <=? n) && (n <=? 57) then Some (n - 48) else None.

Fixpoint digits (s : string) (acc : option Z) : option Z :=
  match s with
  | String c rest =>
      match digit c with
      | Some d => digits rest (Some (10 * nullish acc 0 + d))
      | None => acc
      end
  | EmptyString => acc
  end.

Definition parseInt (text : string) : number :=
  let s := trimStart text in
  let '(sign, rest) :=
    match s with
    | String "-" r => (-1, r)
    | String "+" r => (1, r)
    | _ => (1, s)
    end in
  match digits rest None with
  | Some n => Num (sign * n)
  | None => NaN
  end.

(** [Number.isFinite], [Number.isNaN], [x <= 0] *)
Definition isFinite (x : number) : bool :=
  match x with NaN => false | Num _ => true end.
Definition isNaN (x : number) : bool :=
  match x with NaN => true | Num _ => false end.
Definition le0 (x : number) : bool :=
  match x with NaN => false | Num z => z <=? 0 end.

(** [s.toUpperCase()] on ASCII letters. *)
Definition upper (c : ascii) : ascii :=
  let n := nat_of_ascii c in
  if ((97 <=? n) && (n <=? 122))%nat then ascii_of_nat (n - 32) else c.

Fixpoint toUpperCase (s : string) : string :=
  match s with
  | String c rest => String (upper c) (toUpperCase rest)
  | EmptyString => EmptyString
  end.

(** ** The persisted record *)

Inductive BuildStatus : Type :=
  | success
  | error.

(** [type SchedulerState]; every property is optional.  [ModeB] declares
    the same type without [webhookUrl] and stores it under the same key. *)
Record SchedulerState : Type := {
  lastWebhookAt : option number;
  scheduledFor : option number;
  lastBuildAt : option number;
  lastBuildStatus : option BuildStatus;
  lastError : option string;
  retryCount : option number;
  delayMs : option number;
  webhookUrl : option string;
}.

(** Property assignments [state.f = v]. *)
Definition set_lastWebhookAt (v : option number) (s : SchedulerState) :=
  {| lastWebhookAt := v; scheduledFor := scheduledFor s;
     lastBuildAt := lastBuildAt s; lastBuildStatus := lastBuildStatus s;
     lastError := lastError s; retryCount := retryCount s;
     delayMs := delayMs s; webhookUrl := webhookUrl s |}.
Definition set_scheduledFor (v : option number) (s : SchedulerState) :=
  {| lastWebhookAt := lastWebhookAt s; scheduledFor := v;
     lastBuildAt := lastBuildAt s; lastBuildStatus := lastBuildStatus s;
     lastError := lastError s; retryCount := retryCount s;
     delayMs := delayMs s; webhookUrl := webhookUrl s |}.
Definition set_lastBuildAt (v : option number) (s : SchedulerState) :=
  {| lastWebhookAt := lastWebhookAt s; scheduledFor := scheduledFor s;
     lastBuildAt := v; lastBuildStatus := lastBuildStatus s;
     lastError := lastError s; retryCount := retryCount s;
     delayMs := delayMs s; webhookUrl := webhookUrl s |}.
Definition set_lastBuildStatus (v : option BuildStatus) (s : SchedulerState) :=
  {| lastWebhookAt := lastWebhookAt s; scheduledFor := scheduledFor s;
     lastBuildAt := lastBuildAt s; lastBuildStatus := v;
     lastError := lastError s; retryCount := retryCount s;
     delayMs := delayMs s; webhookUrl := webhookUrl s |}.
Definition set_lastError (v : option string) (s : SchedulerState) :=
  {| lastWebhookAt := lastWebhookAt s; scheduledFor := scheduledFor s;
     lastBuildAt := lastBuildAt s; lastBuildStatus := lastBuildStatus s;
     lastError := v; retryCount := retryCount s;
     delayMs := delayMs s; webhookUrl := webhookUrl s |}.
Definition set_retryCount (v : option number) (s : SchedulerState) :=
  {| lastWebhookAt := lastWebhookAt s; scheduledFor := scheduledFor s;
     lastBuildAt := lastBuildAt s; lastBuildStatus := lastBuildStatus s;
     lastError := lastError s; retryCount := v;
     delayMs := delayMs s; webhookUrl := webhookUrl s |}.
Definition set_delayMs (v : option number) (s : SchedulerState) :=
  {| lastWebhookAt := lastWebhookAt s; scheduledFor := scheduledFor s;
     lastBuildAt := lastBuildAt s; lastBuildStatus := lastBuildStatus s;
     lastError := lastError s; retryCount := retryCount s;
     delayMs := v; webhookUrl := webhookUrl s |}.
Definition set_webhookUrl (v : option string) (s : SchedulerState) :=
  {| lastWebhookAt := lastWebhookAt s; scheduledFor := scheduledFor s;
     lastBuildAt := lastBuildAt s; lastBuildStatus := lastBuildStatus s;
     lastError := lastError s; retryCount := retryCount s;
     delayMs := delayMs s; webhookUrl := v |}.

(** The record [getState] makes up when nothing is stored:
    [{ retryCount: 0 }]. *)
Definition fresh : SchedulerState :=
  {| lastWebhookAt := None; scheduledFor := None; lastBuildAt := None;
     lastBuildStatus := None; lastError := None;
     retryCount := Some (Num 0); delayMs := None; webhookUrl := None |}.

Module QueueResponse.
Record t : Type := {
  lastWebhookAt : number;
  scheduledFor : number;
  delayMs : number;
}.
End QueueResponse.

Module StatusResponse.
Record t : Type := {
  lastWebhookAt : option string;
  scheduledFor : option string;
  lastBuildAt : option string;
  lastBuildStatus : option BuildStatus;
  lastError : option string;
  retryCount : number;
  delayMs : option number;
  webhookUrl : option string;
}.
End StatusResponse.

(** ** The Durable Object runtime

    What one instance of the object can observe and change: the value
    stored under [STATE_KEY], the single wake point of its alarm, and the
    outbound requests it has sent (target and method, oldest first). *)

Record World : Type := {
  storage : option SchedulerState;
  alarmAt : option number;
  fetched : list (string * string);
}.

Definition empty_world : World :=
  {| storage := None; alarmAt := None; fetched := [] |}.

(** A method of the object: it runs from a world, ends with a value or a
    thrown value, and leaves a world.  Writes made before a throw stay. *)
Definition DO (A : Type) : Type := World -> Completion A * World.

#[global] Instance DO_ret : MRet DO := fun A a w => (Return a, w).
#[global] Instance DO_bind : MBind DO := fun A B f m w =>
  match m w with
  | (Return a, w') => f a w'
  | (Throw e, w') => (Throw e, w')
  end.

Definition throw {A : Type} (e : JsValue) : DO A := fun w => (Throw e, w).

(** A pure evaluation that may throw. *)
Definition lift {A : Type} (c : Completion A) : DO A := fun w => (c, w).

(** [try { body } catch (e) { handler(e) }] *)
Definition tryCatch {A : Type} (body : DO A) (handler : JsValue -> DO A) : DO A :=
  fun w =>
    match body w with
    | (Return a, w') => (Return a, w')
    | (Throw e, w') => handler e w'
    end.

(** [this.ctx.storage.get(STATE_KEY)], [.put(STATE_KEY, state)] and
    [.setAlarm(at)]; arming replaces the previous wake point.  The storage
    operations are taken not to fail.  [setAlarm] is the runtime's for the
    times the runtime accepts: it refuses a time after the year 2189 with
    a [TypeError] and then arms nothing, which the model does not; the
    statements about arming a time chosen by a caller are made for times
    up to [LAST_ALARM]. *)
Definition storage_get : DO (option SchedulerState) :=
  fun w => (Return (storage w), w).

Definition storage_put (state : SchedulerState) : DO unit :=
  fun w => (Return tt,
            {| storage := Some state; alarmAt := alarmAt w; fetched := fetched w |}).

Definition setAlarm (scheduledTime : number) : DO unit :=
  fun w => (Return tt,
            {| storage := storage w; alarmAt := Some scheduledTime;
               fetched := fetched w |}).

(** The outcome of the outbound request, decided by the network: a
    response with a status, or a rejection with some reason. *)
Inductive FetchOutcome : Type :=
  | Responded (status : Z)
  | Rejected (reason : JsValue).

(** [await fetch(url, { method })] when the network answers [reply]: the
    request is sent; a rejection is thrown. *)
Definition fetch_url (reply : FetchOutcome) (url method : string) : DO Z :=
  fun w =>
    let w' := {| storage := storage w; alarmAt := alarmAt w;
                 fetched := fetched w ++ [(url, method)] |} in
    match reply with
    | Responded status => (Return status, w')
    | Rejected reason => (Throw reason, w')
    end.

(** [response.ok] *)
Definition ok (status : Z) : bool := (200 <=? status) && (status <=? 299).

(** The runtime's side of the alarm.  The wake point is consumed when the
    handler is invoked, so a handler that returns leaves armed only what it
    armed itself; a handler that throws is delivered again later, which is
    to say that a wake point remains. *)
Definition disarm (w : World) : World :=
  {| storage := storage w; alarmAt := None; fetched := fetched w |}.

Definition deliver (handler : DO unit) (w : World) : World :=
  match handler (disarm w) with
  | (Return _, w') => w'
  | (Throw _, w') =>
      match alarmAt w' with
      | Some _ => w'
      | None => {| storage := storage w'; alarmAt := alarmAt w;
                   fetched := fetched w' |}
      end
  end.

(** The methods shared by both revisions. *)
Definition getState : DO SchedulerState :=
  stored ← storage_get; mret (nullish stored fresh).

Definition setState (state : SchedulerState) : DO unit := storage_put state.

(** The [catch] block of [alarm], the same in both revisions, entered with
    the record as read at the start of the handler. *)
Definition onFailure (now : Z) (state : SchedulerState) (thrown : JsValue)
  : DO unit :=
  let retryCount' := add (nullish (retryCount state) (Num 0)) (Num 1) in
  let retryDelayMs := getRetryDelayMs retryCount' in
  let nextAlarm := add (Num now) (ToNumber retryDelayMs) in
  let state := set_lastBuildAt (Some (Num now)) state in
  let state := set_lastBuildStatus (Some error) state in
  message ← lift (truncateError thrown);
  let state := set_lastError (Some message) state in
  let state := set_retryCount (Some retryCount') state in
  let state := set_scheduledFor (Some nextAlarm) state in
  setState state;;
  setAlarm nextAlarm;;
  lift (toISOString nextAlarm);;
  mret tt.

(** ** Revision A: the target URL comes with each request *)

Module ModeA.

(** [async queueBuild(webhookUrl, delaySeconds)], called at time [now].
    The log line is kept for the date it formats, which can throw. *)
Definition queueBuild (now : Z) (webhookUrl' : string) (delaySeconds : number)
  : DO QueueResponse.t :=
  state ← getState;
  let delayMs' := round_times delaySeconds 1000 in
  let scheduledFor' := add (Num now) delayMs' in
  let state := set_lastWebhookAt (Some (Num now)) state in
  let state := set_scheduledFor (Some scheduledFor') state in
  let state := set_retryCount (Some (Num 0)) state in
  let state := set_delayMs (Some delayMs') state in
  let state := set_webhookUrl (Some webhookUrl') state in
  setState state;;
  setAlarm scheduledFor';;
  lift (toISOString scheduledFor');;
  mret {| QueueResponse.lastWebhookAt := Num now;
          QueueResponse.scheduledFor := scheduledFor';
          QueueResponse.delayMs := delayMs' |}.

(** [async getStatus()] *)
Definition getStatus : DO StatusResponse.t :=
  state ← getState;
  lastWebhookAt' ← lift (toIso (lastWebhookAt state));
  scheduledFor' ← lift (toIso (scheduledFor state));
  lastBuildAt' ← lift (toIso (lastBuildAt state));
  mret {| StatusResponse.lastWebhookAt := lastWebhookAt';
          StatusResponse.scheduledFor := scheduledFor';
          StatusResponse.lastBuildAt := lastBuildAt';
          StatusResponse.lastBuildStatus := lastBuildStatus state;
          StatusResponse.lastError := lastError state;
          StatusResponse.retryCount := nullish (retryCount state) (Num 0);
          StatusResponse.delayMs := delayMs state;
          StatusResponse.webhookUrl := webhookUrl state |}.

(** [async alarm()], running at time [now] while the network would
    answer the trigger call with [reply]. *)
Definition alarm (now : Z) (reply : FetchOutcome) : DO unit :=
  state ← getState;
  let scheduledFor' := scheduledFor state in
  if falsy scheduledFor' then mret tt
  else
    let webhookUrl' := webhookUrl state in
    if falsy_string webhookUrl' then
      let state := set_lastBuildAt (Some (Num now)) state in
      let state := set_lastBuildStatus (Some error) state in
      let state :=
        set_lastError (Some "No webhook URL available for execution.") state in
      let state :=
        set_retryCount
          (Some (add (nullish (retryCount state) (Num 0)) (Num 1))) state in
      setState state
    else
      tryCatch
        (status ← fetch_url reply (nullish webhookUrl' "") "POST";
         if negb (ok status) then
           throw (JsError ("Build webhook responded with HTTP " ++ decimal status))
         else
           let state := set_lastBuildAt (Some (Num now)) state in
           let state := set_lastBuildStatus (Some success) state in
           let state := set_lastError None state in
           let state := set_retryCount (Some (Num 0)) state in
           let state := set_scheduledFor None state in
           setState state)
        (onFailure now state).

(** *** The front door *)

Record Env : Type := {
  WEBHOOK_SECRET : option string;
}.

(** The parts of a [Request] the handler reads.  Header names are the
    lower-case ones [Headers.get] looks up. *)
Record Request : Type := {
  method : string;
  pathname : string;
  headers : gmap string string;
  searchParams : gmap string string;
}.

Inductive Body : Type :=
  | NoBody
  | Text (text : string)
  | StatusJson (status : StatusResponse.t)
  | AcceptedJson (scheduledFor : string) (delaySeconds : number)
                 (webhookUrl : string).

Record Response : Type := {
  status : Z;
  body : Body;
}.

(** What the handler reads of a parsed [URL]. *)
Record URL : Type := {
  protocol : string;
  href : string;
}.

Section Gateway.

(** [new URL(text)], the platform's URL parser: [None] when it throws. *)
Variable parseURL : string -> option URL.

(** The rest of [fetch] once the method and the secret have been accepted:
    the validation of the two headers and the call of [queueBuild]. *)
Definition schedule (request : Request) (now : Z) : DO Response :=
  let webhookUrlHeader := headers request !! "x-webhook-url" in
  if falsy_string webhookUrlHeader then
    mret {| status := 400; body := Text "Missing x-webhook-url header" |}
  else
    match parseURL (nullish webhookUrlHeader "") with
    | None =>
        mret {| status := 400; body := Text "Invalid x-webhook-url header" |}
    | Some parsedWebhookUrl =>
        if negb (String.eqb (protocol parsedWebhookUrl) "http:"
                 || String.eqb (protocol parsedWebhookUrl) "https:") then
          mret {| status := 400; body := Text "Unsupported webhook protocol" |}
        else
          let delaySecondsHeader := headers request !! "x-delay-seconds" in
          if falsy_string delaySecondsHeader then
            mret {| status := 400; body := Text "Missing x-delay-seconds header" |}
          else
            let delaySeconds := parseInt (nullish delaySecondsHeader "") in
            if negb (isFinite delaySeconds) || le0 delaySeconds then
              mret {| status := 400;
                      body := Text "Invalid x-delay-seconds header" |}
            else
              result ← queueBuild now (href parsedWebhookUrl) delaySeconds;
              scheduledFor' ←
                lift (toISOString (QueueResponse.scheduledFor result));
              mret {| status := 202;
                      body := AcceptedJson scheduledFor'
                                (round_div (QueueResponse.delayMs result) 1000)
                                (href parsedWebhookUrl) |}
    end.

(** [fetch(request, env, ctx)] of the default export. *)
Definition fetch (request : Request) (env : Env) (now : Z) : DO Response :=
  if String.eqb (method request) "OPTIONS" then
    mret {| status := 204; body := NoBody |}
  else if String.eqb (method request) "GET"
          && String.eqb (pathname request) "/status" then
    status' ← getStatus;
    mret {| status := 200; body := StatusJson status' |}
  else if negb (String.eqb (method request) "POST") then
    mret {| status := 404; body := Text "Not Found" |}
  else
    let secret := WEBHOOK_SECRET env in
    let providedSecret :=
      match headers request !! "x-webhook-secret" with
      | Some v => Some v
      | None => searchParams request !! "secret"
      end in
    if negb (falsy_string secret)
       && negb (bool_decide (providedSecret = secret)) then
      mret {| status := 401; body := Text "Unauthorized" |}
    else schedule request now.

End Gateway.

End ModeA.

(** ** Revision B: the target URL comes from the deployment *)

Module ModeB.

Record Env : Type := {
  BUILD_WEBHOOK_URL : option string;
  BUILD_DELAY_SECONDS : option string;
  BUILD_TRIGGER_METHOD : option string;
  WEBHOOK_SECRET : option string;
}.

Definition DEFAULT_DELAY_MS : Z := 15 * 60 * 1000.

(** [private resolveDelayMs()].  The product is the exact one (see
    [number]): it is the code's for a parsed value whose product with 1000
    is a safe integer. *)
Definition resolveDelayMs (env : Env) : number :=
  let rawSeconds := BUILD_DELAY_SECONDS env in
  if falsy_string rawSeconds then Num DEFAULT_DELAY_MS
  else
    let parsedSeconds := parseInt (nullish rawSeconds "") in
    if isNaN parsedSeconds || le0 parsedSeconds then Num DEFAULT_DELAY_MS
    else match parsedSeconds with
         | Num z => Num (z * 1000)
         | NaN => NaN
         end.

(** [private resolveTriggerMethod()] *)
Definition resolveTriggerMethod (env : Env) : string :=
  match toUpperCase <$> BUILD_TRIGGER_METHOD env with
  | Some m => if String.eqb m "GET" then "GET" else "POST"
  | None => "POST"
  end.

(** [async queueBuild()] *)
Definition queueBuild (env : Env) (now : Z) : DO QueueResponse.t :=
  state ← getState;
  let delayMs' := resolveDelayMs env in
  let scheduledFor' := add (Num now) delayMs' in
  let state := set_lastWebhookAt (Some (Num now)) state in
  let state := set_scheduledFor (Some scheduledFor') state in
  let state := set_retryCount (Some (Num 0)) state in
  let state := set_delayMs (Some delayMs') state in
  setState state;;
  setAlarm scheduledFor';;
  lift (toISOString scheduledFor');;
  mret {| QueueResponse.lastWebhookAt := Num now;
          QueueResponse.scheduledFor := scheduledFor';
          QueueResponse.delayMs := delayMs' |}.

(** [async alarm()] *)
Definition alarm (env : Env) (now : Z) (reply : FetchOutcome) : DO unit :=
  state ← getState;
  let scheduledFor' := scheduledFor state in
  if falsy scheduledFor' then mret tt
  else if falsy_string (BUILD_WEBHOOK_URL env) then
    let state := set_lastBuildAt (Some (Num now)) state in
    let state := set_lastBuildStatus (Some error) state in
    let state := set_lastError (Some "BUILD_WEBHOOK_URL not configured.") state in
    let state :=
      set_retryCount
        (Some (add (nullish (retryCount state) (Num 0)) (Num 1))) state in
    setState state
  else
    tryCatch
      (status ← fetch_url reply (nullish (BUILD_WEBHOOK_URL env) "")
                  (resolveTriggerMethod env);
       if negb (ok status) then
         throw (JsError ("Build webhook responded with HTTP " ++ decimal status))
       else
         let state := set_lastBuildAt (Some (Num now)) state in
         let state := set_lastBuildStatus (Some success) state in
         let state := set_lastError None state in
         let state := set_retryCount (Some (Num 0)) state in
         let state := set_scheduledFor None state in
         setState state)
      (onFailure now state).

(** [type StatusResponse] of this revision, which has no [webhookUrl]. *)
Module StatusResponse.
Record t : Type := {
  lastWebhookAt : option string;
  scheduledFor : option string;
  lastBuildAt : option string;
  lastBuildStatus : option BuildStatus;
  lastError : option string;
  retryCount : number;
  delayMs : option number;
}.
End StatusResponse.

(** [async getStatus()] *)
Definition getStatus : DO StatusResponse.t :=
  state ← getState;
  lastWebhookAt' ← lift (toIso (lastWebhookAt state));
  scheduledFor' ← lift (toIso (scheduledFor state));
  lastBuildAt' ← lift (toIso (lastBuildAt state));
  mret {| StatusResponse.lastWebhookAt := lastWebhookAt';
          StatusResponse.scheduledFor := scheduledFor';
          StatusResponse.lastBuildAt := lastBuildAt';
          StatusResponse.lastBuildStatus := lastBuildStatus state;
          StatusResponse.lastError := lastError state;
          StatusResponse.retryCount := nullish (retryCount state) (Num 0);
          StatusResponse.delayMs := delayMs state |}.

(** *** The front door *)

Inductive Body : Type :=
  | NoBody
  | Text (text : string)
  | StatusJson (status : StatusResponse.t)
  | AcceptedJson (scheduledFor : string) (delaySeconds : number).

Record Response : Type := {
  status : Z;
  body : Body;
}.

(** [fetch(request, env, ctx)] of the default export; the request is read
    as in revision A. *)
Definition fetch (request : ModeA.Request) (env : Env) (now : Z) : DO Response :=
  if String.eqb (ModeA.method request) "OPTIONS" then
    mret {| status := 204; body := NoBody |}
  else if String.eqb (ModeA.method request) "GET"
          && String.eqb (ModeA.pathname request) "/status" then
    status' ← getStatus;
    mret {| status := 200; body := StatusJson status' |}
  else if negb (String.eqb (ModeA.method request) "POST") then
    mret {| status := 404; body := Text "Not Found" |}
  else
    let secret := WEBHOOK_SECRET env in
    let providedSecret :=
      match ModeA.headers request !! "x-webhook-secret" with
      | Some v => Some v
      | None => ModeA.searchParams request !! "secret"
      end in
    if negb (falsy_string secret)
       && negb (bool_decide (providedSecret = secret)) then
      mret {| status := 401; body := Text "Unauthorized" |}
    else
      result ← queueBuild env now;
      scheduledFor' ← lift (toISOString (QueueResponse.scheduledFor result));
      mret {| status := 202;
              body := AcceptedJson scheduledFor'
                        (round_div (QueueResponse.delayMs result) 1000) |}.

End ModeB.

(** ** Vocabulary of the statements *)

(** The record a handler works on: what [getState] returns. *)
Definition stateOf (w : World) : SchedulerState := nullish (storage w) fresh.

(** A world holding [state] in storage. *)
Definition holding (state : SchedulerState) (w : World) : World :=
  {| storage := Some state; alarmAt := alarmAt w; fetched := fetched w |}.

(** A world after one more outbound request. *)
Definition sent (url method : string) (w : World) : World :=
  {| storage := storage w; alarmAt := alarmAt w;
     fetched := fetched w ++ [(url, method)] |}.

(** [state.retryCount ?? 0] *)
Definition attempts (state : SchedulerState) : number :=
  nullish (retryCount state) (Num 0).

(** The value the [catch] block of [alarm] receives for a reply, if any:
    the [Error] made for a status outside 200..299, or the rejection. *)
Definition failure (reply : FetchOutcome) : option JsValue :=
  match reply with
  | Responded status =>
      if ok status then None
      else Some (JsError ("Build webhook responded with HTTP " ++ decimal status))
  | Rejected reason => Some reason
  end.

(** The stored [scheduledFor], when it is a time ([!scheduledFor] is
    false), is the armed wake point. *)
Definition timer_consistent (w : World) : bool :=
  falsy (scheduledFor (stateOf w))
  || bool_decide (alarmAt w = scheduledFor (stateOf w)).

(** The entry of the backoff table for a positive attempt count. *)
Definition backoff (attempt : Z) : Z :=
  if attempt =? 1 then 60000 else if attempt =? 2 then 120000 else 300000.

(** What [truncateError] returns once the message text is known. *)
Definition truncated (message : string) : string :=
  if (500 <? String.length message)%nat
  then slice0 497 message ++ "..." else message.

(** The record the [catch] block stores. *)
Definition failed (now : Z) (attempt : Z) (message : string)
    (state : SchedulerState) : SchedulerState :=
  set_scheduledFor (Some (Num (now + backoff attempt)))
    (set_retryCount (Some (Num attempt))
       (set_lastError (Some message)
          (set_lastBuildStatus (Some error)
             (set_lastBuildAt (Some (Num now)) state)))).

(** Sample data for the closed statements. *)
Definition pending (count : Z) : SchedulerState :=
  {| lastWebhookAt := Some (Num 0); scheduledFor := Some (Num 60000);
     lastBuildAt := None; lastBuildStatus := None; lastError := None;
     retryCount := Some (Num count); delayMs := Some (Num 60000);
     webhookUrl := Some "https://example.com/build" |}.

Definition pending_world (count : Z) : World :=
  {| storage := Some (pending count); alarmAt := None; fetched := [] |}.

(** A deployment of revision B with no target URL configured. *)
Definition unconfigured : ModeB.Env :=
  {| ModeB.BUILD_WEBHOOK_URL := None; ModeB.BUILD_DELAY_SECONDS := None;
     ModeB.BUILD_TRIGGER_METHOD := None; ModeB.WEBHOOK_SECRET := None |}.

(** The secret a request presents, and the check the front door makes. *)
Definition providedSecret (request : ModeA.Request) : option string :=
  match ModeA.headers request !! "x-webhook-secret" with
  | Some v => Some v
  | None => ModeA.searchParams request !! "secret"
  end.

Definition authorized (env : ModeA.Env) (request : ModeA.Request) : bool :=
  falsy_string (ModeA.WEBHOOK_SECRET env)
  || bool_decide (providedSecret request = ModeA.WEBHOOK_SECRET env).



(** A stand-in for the platform's URL parser on the sample requests: the
    scheme is what precedes ["://"], the text is kept as it is. *)
Definition sampleURL (text : string) : option ModeA.URL :=
  match index 0 "://" text with
  | Some (S n) =>
      Some {| ModeA.protocol := substring 0 (S n) text ++ ":";
              ModeA.href := text |}
  | _ => None
  end.

Definition open_env : ModeA.Env := {| ModeA.WEBHOOK_SECRET := None |}.

Definition schedule_request (url delay : string) : ModeA.Request :=
  {| ModeA.method := "POST"; ModeA.pathname := "/";
     ModeA.headers := {[ "x-webhook-url" := url; "x-delay-seconds" := delay ]};
     ModeA.searchParams := ∅ |}.

(** The record [queueBuild] stores for an integral delay. *)
Definition queued (now d : Z) (url : string) (state : SchedulerState)
  : SchedulerState :=
  set_webhookUrl (Some url)
    (set_delayMs (Some (Num (d * 1000)))
       (set_retryCount (Some (Num 0))
          (set_scheduledFor (Some (Num (now + d * 1000)))
             (set_lastWebhookAt (Some (Num now)) state)))).

(** The retry count is a non-negative integer. *)
Definition counted (w : World) : Prop :=
  exists n, attempts (stateOf w) = Num n /\ 0 <= n.

(** What can happen to the object of revision A: a call of [queueBuild]
    with an integral delay, or a delivery of the alarm. *)
Inductive Event : Type :=
  | Queue (now : Z) (url : string) (delaySeconds : Z)
  | Fire (now : Z) (reply : FetchOutcome).

Definition step (w : World) (e : Event) : World :=
  match e with
  | Queue now url delaySeconds =>
      snd (ModeA.queueBuild now url (Num delaySeconds) w)
  | Fire now reply => deliver (ModeA.alarm now reply) w
  end.

Definition run_events (events : list Event) (w : World) : World :=
  fold_left step events w.

(** The front door only queues the text of a parsed URL, which is not
    empty. *)
Definition addressed (e : Event) : bool :=
  match e with
  | Queue _ url _ => negb (String.eqb url "")
  | Fire _ _ => true
  end.

(** A pending record has a target. *)
Definition targeted (w : World) : bool :=
  falsy (scheduledFor (stateOf w))
  || negb (falsy_string (webhookUrl (stateOf w))).

(** What [toIso] makes of a stored time that a [Date] can hold. *)
Definition renderable (value : option number) : bool :=
  falsy value
  || match value with
     | Some (Num z) => Z.abs z <=? MAX_TIME
     | _ => false
     end.

Definition rendered (value : option number) : option string :=
  match value with
  | Some (Num z) => if z =? 0 then None else Some (iso_format z)
  | _ => None
  end.

(** The request of a status query, and a deployment with a secret. *)
Definition status_request : ModeA.Request :=
  {| ModeA.method := "GET"; ModeA.pathname := "/status";
     ModeA.headers := ∅; ModeA.searchParams := ∅ |}.

Definition guarded_env : ModeA.Env := {| ModeA.WEBHOOK_SECRET := Some "s3cret" |}.

Definition configured : ModeB.Env :=
  {| ModeB.BUILD_WEBHOOK_URL := Some "https://example.com/build";
     ModeB.BUILD_DELAY_SECONDS := Some "60";
     ModeB.BUILD_TRIGGER_METHOD := Some "get";
     ModeB.WEBHOOK_SECRET := Some "s3cret" |}.

(** A status of revision A as revision B reports it, without the target. *)
Definition without_target (status : StatusResponse.t) : ModeB.StatusResponse.t :=
  {| ModeB.StatusResponse.lastWebhookAt := StatusResponse.lastWebhookAt status;
     ModeB.StatusResponse.scheduledFor := StatusResponse.scheduledFor status;
     ModeB.StatusResponse.lastBuildAt := StatusResponse.lastBuildAt status;
     ModeB.StatusResponse.lastBuildStatus := StatusResponse.lastBuildStatus status;
     ModeB.StatusResponse.lastError := StatusResponse.lastError status;
     ModeB.StatusResponse.retryCount := StatusResponse.retryCount status;
     ModeB.StatusResponse.delayMs := StatusResponse.delayMs status |}.

(** The start of the year 2189, in milliseconds from the epoch: a bound
    on the times the runtime's [setAlarm] accepts. *)
Definition LAST_ALARM : Z := 6911049600000.

(** [Number.MAX_SAFE_INTEGER] *)
Definition MAX_SAFE_INTEGER : Z := 9007199254740991.

(** The message text [truncateError] reads off a caught value, when there
    is one: [error.message], the string itself, or the JSON text. *)
Definition described (thrown : JsValue) : option string :=
  match thrown with
  | JsError message => Some message
  | JsString s => Some s
  | JsOther (JsonText text) => Some text
  | JsOther _ => None
  end.

(** An event the front door and the runtime can produce: a request comes
    with a non-empty target, a positive delay and a scheduled time within
    the range of the alarm. *)
Definition schedulable (e : Event) : bool :=
  match e with
  | Queue now url delaySeconds =>
      negb (String.eqb url "") && (0 <=? now) && (0 <? delaySeconds)
      && (now + delaySeconds * 1000 <=? LAST_ALARM)
  | Fire _ _ => true
  end.

(** * Properties *)

(** ** The built-ins on sample values *)

Example iso_epoch : toISOString (Num 0) = Return "1970-01-01T00:00:00.000Z".
Proof. reflexivity. Qed.

Example iso_2025 :
  toISOString (Num 1737369000000) = Return "2025-01-20T10:30:00.000Z".
Proof. vm_compute. reflexivity. Qed.

Example iso_leap :
  toISOString (Num 951782400000) = Return "2000-02-29T00:00:00.000Z".
Proof. vm_compute. reflexivity. Qed.

Example iso_before_epoch :
  toISOString (Num (-1)) = Return "1969-12-31T23:59:59.999Z".
Proof. vm_compute. reflexivity. Qed.

Example iso_last :
  toISOString (Num 8640000000000000) = Return "+275760-09-13T00:00:00.000Z".
Proof. vm_compute. reflexivity. Qed.

Example iso_out_of_range :
  toISOString (Num 8640000000000001) = Throw RangeError_time.
Proof. reflexivity. Qed.

(** ** Arithmetic of the built-ins *)

Lemma Math_round_integer (n : Z) : Math_round (inject_Z n) = n.
Proof.
  unfold Math_round, Qfloor, Qplus, inject_Z. simpl.
  symmetry. apply Z.div_unique with (r := 1); lia.
Qed.

Lemma round_times_integer (z k : Z) : round_times (Num z) k = Num (z * k).
Proof.
  unfold round_times. rewrite <- inject_Z_mult. now rewrite Math_round_integer.
Qed.

Lemma Math_round_eq (p q : Q) : (p == q)%Q -> Math_round p = Math_round q.
Proof.
  intros H. unfold Math_round. apply Qfloor_comp. now rewrite H.
Qed.

Lemma round_div_multiple (z k : Z) : k <> 0 -> round_div (Num (z * k)) k = Num z.
Proof.
  intros Hk. unfold round_div. f_equal.
  rewrite <- (Math_round_integer z) at 2. apply Math_round_eq.
  rewrite inject_Z_mult. field. 
  intros H. apply Hk. unfold Qeq in H. simpl in H. lia.
Qed.

(** ** The backoff table *)

Lemma getRetryDelayMs_attempt (attempt : Z) :
  1 <= attempt -> getRetryDelayMs (Num attempt) = Some (Num (backoff attempt)).
Proof.
  intros H. unfold getRetryDelayMs, backoff, add, Math_min, index_table. simpl.
  destruct (Z.eqb_spec attempt 1) as [-> | H1]; [reflexivity |].
  destruct (Z.eqb_spec attempt 2) as [-> | H2]; [reflexivity |].
  rewrite Z.min_r by lia. reflexivity.
Qed.

Lemma getRetryDelayMs_undefined (attempt : Z) :
  attempt <= 0 -> getRetryDelayMs (Num attempt) = None.
Proof.
  intros H. unfold getRetryDelayMs, add, Math_min, index_table. simpl.
  rewrite Z.min_l by lia.
  destruct (Z.ltb_spec (attempt + -1) 0); [reflexivity | lia].
Qed.

(** ** Truncation *)

Lemma length_substring0 (n : nat) (s : string) :
  (n <= String.length s)%nat -> String.length (substring 0 n s) = n.
Proof.
  revert s. induction n as [| n IH]; intros [| c s] H; simpl in *;
    try reflexivity; try lia.
  f_equal. apply IH. lia.
Qed.


Lemma length_append (s t : string) :
  String.length (s ++ t) = (String.length s + String.length t)%nat.
Proof. induction s as [| c s IH]; simpl; [reflexivity | now rewrite IH]. Qed.

Lemma length_truncated (message : string) :
  (500 < String.length message)%nat ->
  String.length (slice0 497 message ++ "...") = 500%nat.
Proof.
  intros H. unfold slice0. rewrite length_append, length_substring0 by lia.
  reflexivity.
Qed.

Lemma truncated_length (message : string) :
  (String.length (truncated message) <= 500)%nat.
Proof.
  unfold truncated. destruct (Nat.ltb_spec 500 (String.length message)).
  - rewrite length_truncated by assumption. lia.
  - assumption.
Qed.

(** ** Running the handlers *)

#[local] Arguments getRetryDelayMs : simpl never.
#[local] Arguments truncateError : simpl never.
#[local] Arguments toISOString : simpl never.
#[local] Arguments toIso : simpl never.
#[local] Arguments round_times : simpl never.
#[local] Arguments round_div : simpl never.

Ltac run :=
  unfold getState, setState, storage_get, storage_put, setAlarm, fetch_url,
    tryCatch, throw, lift, mbind, mret, DO_bind, DO_ret; cbn.

Lemma truncateError_described (thrown : JsValue) (message : string) :
  truncateError thrown = Return message -> (String.length message <= 500)%nat.
Proof.
  unfold truncateError. intros H.
  destruct thrown as [m | m | [m | |]]; simpl in H; try discriminate;
    (destruct (Nat.ltb_spec 500 (String.length m));
     injection H as <-; [rewrite length_truncated by assumption; lia | assumption]).
Qed.

Lemma alarm_stale (now : Z) (reply : FetchOutcome) (w : World) :
  falsy (scheduledFor (stateOf w)) = true ->
  ModeA.alarm now reply w = (Return tt, w).
Proof.
  intros H. unfold ModeA.alarm. run. fold (stateOf w). now rewrite H.
Qed.

Lemma alarm_config_error (now : Z) (reply : FetchOutcome) (w : World) :
  falsy (scheduledFor (stateOf w)) = false ->
  falsy_string (webhookUrl (stateOf w)) = true ->
  ModeA.alarm now reply w =
    (Return tt,
     holding
       (set_retryCount (Some (add (attempts (stateOf w)) (Num 1)))
          (set_lastError (Some "No webhook URL available for execution.")
             (set_lastBuildStatus (Some error)
                (set_lastBuildAt (Some (Num now)) (stateOf w))))) w).
Proof.
  intros H1 H2. unfold ModeA.alarm. run. fold (stateOf w).
  rewrite H1, H2. reflexivity.
Qed.

Lemma alarm_success (now status : Z) (w : World) (url : string) :
  falsy (scheduledFor (stateOf w)) = false ->
  webhookUrl (stateOf w) = Some url -> url <> "" ->
  ok status = true ->
  ModeA.alarm now (Responded status) w =
    (Return tt,
     holding
       (set_scheduledFor None
          (set_retryCount (Some (Num 0))
             (set_lastError None
                (set_lastBuildStatus (Some success)
                   (set_lastBuildAt (Some (Num now)) (stateOf w))))))
       (sent url "POST" w)).
Proof.
  intros H1 H2 H3 H4. unfold ModeA.alarm. run. fold (stateOf w).
  rewrite H1, H2. simpl.
  destruct (String.eqb_spec url "") as [-> | _]; [congruence |].
  rewrite H4. reflexivity.
Qed.

Lemma alarm_failure (now : Z) (reply : FetchOutcome) (w : World)
    (url : string) (thrown : JsValue) :
  falsy (scheduledFor (stateOf w)) = false ->
  webhookUrl (stateOf w) = Some url -> url <> "" ->
  failure reply = Some thrown ->
  ModeA.alarm now reply w = onFailure now (stateOf w) thrown (sent url "POST" w).
Proof.
  intros H1 H2 H3 H4. unfold ModeA.alarm. run. fold (stateOf w).
  rewrite H1, H2. simpl.
  destruct (String.eqb_spec url "") as [-> | _]; [congruence |].
  destruct reply as [status | reason]; simpl in H4.
  - destruct (ok status); [discriminate |]. injection H4 as <-. reflexivity.
  - injection H4 as <-. reflexivity.
Qed.

Lemma onFailure_stores (now n : Z) (state : SchedulerState) (thrown : JsValue)
    (message : string) (w : World) :
  attempts state = Num n -> 0 <= n ->
  truncateError thrown = Return message ->
  snd (onFailure now state thrown w) =
    {| storage := Some (failed now (n + 1) message state);
       alarmAt := Some (Num (now + backoff (n + 1)));
       fetched := fetched w |}.
Proof.
  intros Hn Hpos Hmsg. unfold onFailure. run. rewrite Hmsg.
  fold (attempts state). rewrite Hn. cbn.
  rewrite getRetryDelayMs_attempt by lia. cbn.
  destruct (toISOString _); reflexivity.
Qed.

Lemma truthy_string (v : option string) :
  falsy_string v = false -> exists s, v = Some s /\ s <> "".
Proof.
  destruct v as [s |]; simpl; [| discriminate].
  destruct (String.eqb_spec s ""); [discriminate |]. eauto.
Qed.

(** ** The failure path of [alarm] *)

(** C2. On every execution failure the retry delay is the backoff-table
    entry for the incremented retry count: 60000 ms for 1, 120000 ms for 2
    and 300000 ms for every count from 3 on; whatever the count, the alarm
    is armed again, for [now] plus that delay. *)
Theorem alarm_retry_delay (now n : Z) (reply : FetchOutcome) (w : World)
    (url : string) (thrown : JsValue) (message : string) :
  falsy (scheduledFor (stateOf w)) = false ->
  webhookUrl (stateOf w) = Some url -> url <> "" ->
  attempts (stateOf w) = Num n -> 0 <= n ->
  failure reply = Some thrown ->
  truncateError thrown = Return message ->
  let attempt := n + 1 in
  getRetryDelayMs (Num attempt) = Some (Num (backoff attempt))
  /\ (attempt = 1 -> backoff attempt = 60000)
  /\ (attempt = 2 -> backoff attempt = 120000)
  /\ (3 <= attempt -> backoff attempt = 300000)
  /\ alarmAt (snd (ModeA.alarm now reply w)) = Some (Num (now + backoff attempt)).
Proof.
  intros Hs Hu Hne Hn Hpos Hf Hm attempt. subst attempt.
  split; [apply getRetryDelayMs_attempt; lia |].
  split; [intros ->; reflexivity |].
  split; [intros ->; reflexivity |].
  split.
  - intros H. unfold backoff.
    destruct (Z.eqb_spec (n + 1) 1); [lia |].
    destruct (Z.eqb_spec (n + 1) 2); [lia | reflexivity].
  - rewrite (alarm_failure now reply w url thrown) by assumption.
    rewrite (onFailure_stores now n _ thrown message) by assumption.
    reflexivity.
Qed.

Lemma alarm_retry_delay_witness :
  alarmAt (snd (ModeA.alarm 60000 (Responded 503) (pending_world 7)))
  = Some (Num (60000 + 300000)).
Proof.
  apply (alarm_retry_delay 60000 7 (Responded 503) (pending_world 7)
           "https://example.com/build"
           (JsError "Build webhook responded with HTTP 503")
           "Build webhook responded with HTTP 503");
    first [reflexivity | discriminate | lia].
Defined.

Lemma truncateError_of_described (thrown : JsValue) (description : string) :
  described thrown = Some description ->
  truncateError thrown = Return (truncated description).
Proof.
  unfold truncateError, truncated.
  destruct thrown as [m | m | [m | |]]; simpl; intros [= <-];
    destruct (500 <? String.length m)%nat; reflexivity.
Qed.

(** C5. When the trigger call fails (a status outside 200..299, or a
    rejected request), the record stored afterwards has [retryCount]
    incremented, [scheduledFor] at [now] plus the backoff delay,
    [lastBuildAt] at [now], [lastBuildStatus] [error] and [lastError] the
    description of the failure, cut to its first 497 characters and
    ["..."] when it is longer than 500; the other properties are kept, and
    the alarm is armed for the new [scheduledFor]. *)
Theorem alarm_failure_record (now n : Z) (reply : FetchOutcome) (w : World)
    (url : string) (thrown : JsValue) (description : string) :
  falsy (scheduledFor (stateOf w)) = false ->
  webhookUrl (stateOf w) = Some url -> url <> "" ->
  attempts (stateOf w) = Num n -> 0 <= n ->
  failure reply = Some thrown ->
  described thrown = Some description ->
  let w' := snd (ModeA.alarm now reply w) in
  exists state',
    storage w' = Some state'
    /\ retryCount state' = Some (Num (n + 1))
    /\ scheduledFor state' = Some (Num (now + backoff (n + 1)))
    /\ lastBuildAt state' = Some (Num now)
    /\ lastBuildStatus state' = Some error
    /\ lastError state'
       = Some (if (500 <? String.length description)%nat
               then substring 0 497 description ++ "..."
               else description)
    /\ lastWebhookAt state' = lastWebhookAt (stateOf w)
    /\ delayMs state' = delayMs (stateOf w)
    /\ webhookUrl state' = webhookUrl (stateOf w)
    /\ alarmAt w' = scheduledFor state'
    /\ fetched w' = (fetched w ++ [(url, "POST")])%list.
Proof.
  intros Hs Hu Hne Hn Hpos Hf Hd w'. subst w'.
  rewrite (alarm_failure now reply w url thrown) by assumption.
  rewrite (onFailure_stores now n _ thrown (truncated description))
    by (try assumption; now apply truncateError_of_described).
  eexists. split; [reflexivity |]. cbn. tauto.
Qed.

Lemma alarm_failure_record_witness :
  (exists state',
     storage (snd (ModeA.alarm 60000 (Responded 500) (pending_world 0)))
     = Some state'
     /\ retryCount state' = Some (Num 1)
     /\ scheduledFor state' = Some (Num 120000)
     /\ lastError state' = Some "Build webhook responded with HTTP 500")
  /\ (exists state',
        storage (snd (ModeA.alarm 60000 (Rejected (JsError (zeros 600)))
                        (pending_world 2))) = Some state'
        /\ retryCount state' = Some (Num 3)
        /\ scheduledFor state' = Some (Num 360000)
        /\ lastError state' = Some (zeros 497 ++ "...")).
Proof.
  split.
  - destruct (alarm_failure_record 60000 0 (Responded 500) (pending_world 0)
                "https://example.com/build"
                (JsError "Build webhook responded with HTTP 500")
                "Build webhook responded with HTTP 500")
      as (state' & H1 & H2 & H3 & _ & _ & H6 & _);
      first [reflexivity | discriminate | lia | idtac].
    exists state'. repeat split; assumption.
  - destruct (alarm_failure_record 60000 2 (Rejected (JsError (zeros 600)))
                (pending_world 2) "https://example.com/build"
                (JsError (zeros 600)) (zeros 600))
      as (state' & H1 & H2 & H3 & _ & _ & H6 & _);
      first [reflexivity | discriminate | lia | idtac].
    exists state'. repeat split; assumption.
Defined.

(** ** The success path of [alarm] *)

(** C4. When the trigger call answers with a success status, the record
    stored afterwards has [scheduledFor] unset, [retryCount] 0,
    [lastBuildStatus] [success], [lastError] unset and [lastBuildAt] at the
    execution time; nothing is armed. *)
Theorem alarm_success_record (now status : Z) (w : World) (url : string) :
  falsy (scheduledFor (stateOf w)) = false ->
  webhookUrl (stateOf w) = Some url -> url <> "" ->
  ok status = true ->
  exists state',
    ModeA.alarm now (Responded status) w
      = (Return tt,
         {| storage := Some state'; alarmAt := alarmAt w;
            fetched := (fetched w ++ [(url, "POST")])%list |})
    /\ scheduledFor state' = None
    /\ retryCount state' = Some (Num 0)
    /\ lastBuildStatus state' = Some success
    /\ lastError state' = None
    /\ lastBuildAt state' = Some (Num now)
    /\ lastWebhookAt state' = lastWebhookAt (stateOf w)
    /\ delayMs state' = delayMs (stateOf w)
    /\ webhookUrl state' = webhookUrl (stateOf w).
Proof.
  intros Hs Hu Hne Hok.
  rewrite (alarm_success now status w url) by assumption.
  eexists. split; [reflexivity |]. cbn. tauto.
Qed.

Lemma alarm_success_record_witness :
  exists state',
    ModeA.alarm 60000 (Responded 204) (pending_world 2)
      = (Return tt,
         {| storage := Some state'; alarmAt := None;
            fetched := [("https://example.com/build", "POST")] |})
    /\ scheduledFor state' = None
    /\ retryCount state' = Some (Num 0)
    /\ lastBuildStatus state' = Some success
    /\ lastError state' = None
    /\ lastBuildAt state' = Some (Num 60000).
Proof.
  destruct (alarm_success_record 60000 204 (pending_world 2)
              "https://example.com/build")
    as (state' & H1 & H2 & H3 & H4 & H5 & H6 & _);
    first [reflexivity | discriminate | idtac].
  exists state'. repeat split; assumption.
Defined.

(** ** Truncation of the stored message *)

Lemma truncateError_message (message : string) :
  truncateError (JsError message) = Return (truncated message)
  /\ truncateError (JsString message) = Return (truncated message)
  /\ truncateError (JsOther (JsonText message)) = Return (truncated message).
Proof.
  unfold truncateError, truncated. simpl.
  destruct (500 <? String.length message)%nat; auto.
Qed.


(** C10, as stated, fails: [truncateError] is not total over every value.
    On [undefined], for which [JSON.stringify] yields [undefined], reading
    [message.length] throws a [TypeError] and no string is returned. *)
Lemma truncateError_not_total :
  truncateError undefined = Throw TypeError_length
  /\ ~ (exists stored, truncateError undefined = Return stored).
Proof.
  split; [reflexivity |]. intros [stored H]. discriminate H.
Qed.

(** C10, as the code has it.  On every value that carries a message text,
    that is an [Error], a string or a value [JSON.stringify] renders,
    [truncateError] returns without throwing a string of at most 500
    characters; and what the [catch] block of [alarm] receives for a reply
    with a status outside 200..299 is such a value, the [Error] the [try]
    block makes. *)
Theorem truncateError_returns (thrown : JsValue) (description : string) :
  described thrown = Some description ->
  (exists stored,
     truncateError thrown = Return stored
     /\ (String.length stored <= 500)%nat)
  /\ (forall status thrown',
        failure (Responded status) = Some thrown' ->
        exists description' stored',
          thrown' = JsError description'
          /\ truncateError thrown' = Return stored'
          /\ (String.length stored' <= 500)%nat).
Proof.
  intros Hd. split.
  - exists (truncated description).
    split; [now apply truncateError_of_described | apply truncated_length].
  - intros status thrown' Hf. cbn in Hf.
    destruct (ok status); [discriminate |]. injection Hf as <-.
    eexists. exists (truncated ("Build webhook responded with HTTP "
                                ++ decimal status)).
    split; [reflexivity |].
    split; [now apply truncateError_of_described | apply truncated_length].
Qed.

Lemma truncateError_returns_witness :
  exists stored,
    truncateError (JsError (zeros 600)) = Return stored
    /\ (String.length stored <= 500)%nat.
Proof.
  apply (truncateError_returns (JsError (zeros 600)) (zeros 600)). reflexivity.
Defined.

(** ** Stale fires *)

(** C7. Invoked while the stored [scheduledFor] is unset, [alarm] returns
    without sending the trigger call and without changing the record, the
    alarm or anything else; so it does in both revisions. *)
Theorem alarm_unset_noop (now : Z) (reply : FetchOutcome) (w : World) :
  scheduledFor (stateOf w) = None ->
  ModeA.alarm now reply w = (Return tt, w)
  /\ forall env, ModeB.alarm env now reply w = (Return tt, w).
Proof.
  intros H. split.
  - apply alarm_stale. now rewrite H.
  - intros env. unfold ModeB.alarm. run. fold (stateOf w). now rewrite H.
Qed.

Lemma alarm_unset_noop_witness :
  ModeA.alarm 60000 (Responded 200) empty_world = (Return tt, empty_world).
Proof.
  apply (alarm_unset_noop 60000 (Responded 200) empty_world). reflexivity.
Defined.

(** C9. A stored time of exactly 0 behaves as an unset one: with
    [scheduledFor] at 0, [alarm] does nothing at all; [toIso] renders 0 as
    absent; [getStatus] answers the same whether a time property holds 0
    or is unset, and on a record whose three times are 0 it returns them
    all absent. *)
Theorem zero_time_is_unset (now : Z) (reply : FetchOutcome)
    (state : SchedulerState) (w : World) :
  ModeA.alarm now reply (holding (set_scheduledFor (Some (Num 0)) state) w)
    = (Return tt, holding (set_scheduledFor (Some (Num 0)) state) w)
  /\ toIso (Some (Num 0)) = Return None
  /\ toIso None = Return None
  /\ fst (ModeA.getStatus (holding (set_lastWebhookAt (Some (Num 0)) state) w))
     = fst (ModeA.getStatus (holding (set_lastWebhookAt None state) w))
  /\ fst (ModeA.getStatus (holding (set_scheduledFor (Some (Num 0)) state) w))
     = fst (ModeA.getStatus (holding (set_scheduledFor None state) w))
  /\ fst (ModeA.getStatus (holding (set_lastBuildAt (Some (Num 0)) state) w))
     = fst (ModeA.getStatus (holding (set_lastBuildAt None state) w))
  /\ fst (ModeA.getStatus
            (holding (set_lastWebhookAt (Some (Num 0))
                        (set_scheduledFor (Some (Num 0))
                           (set_lastBuildAt (Some (Num 0)) state))) w))
     = Return {| StatusResponse.lastWebhookAt := None;
                 StatusResponse.scheduledFor := None;
                 StatusResponse.lastBuildAt := None;
                 StatusResponse.lastBuildStatus := lastBuildStatus state;
                 StatusResponse.lastError := lastError state;
                 StatusResponse.retryCount := attempts state;
                 StatusResponse.delayMs := delayMs state;
                 StatusResponse.webhookUrl := webhookUrl state |}.
Proof.
  split; [apply alarm_stale; reflexivity |].
  repeat split; try reflexivity;
    unfold ModeA.getStatus; run;
    change (toIso (Some (Num 0))) with (@Return (option string) None);
    change (toIso None) with (@Return (option string) None);
    repeat (match goal with |- context [toIso ?v] => destruct (toIso v) end; cbn);
    reflexivity.
Qed.

(** ** The wake point and the stored [scheduledFor] *)

(** C1. The configuration-error branch of [alarm] breaks the agreement
    between [scheduledFor] and the alarm.  A deployment of revision B
    without [BUILD_WEBHOOK_URL] accepts a request at 2025-11-02T12:00:00Z
    and arms the alarm for a quarter of an hour later; when that alarm
    fires, the handler stores the error and returns, leaving [scheduledFor]
    as it was with no wake point. *)
Theorem config_error_strands_scheduledFor :
  let w1 := snd (ModeB.queueBuild unconfigured 1762084800000 empty_world) in
  let w2 := deliver (ModeB.alarm unconfigured 1762085700000 (Responded 200)) w1 in
  timer_consistent w1 = true
  /\ alarmAt w1 = Some (Num 1762085700000)
  /\ scheduledFor (stateOf w2) = Some (Num 1762085700000)
  /\ lastBuildStatus (stateOf w2) = Some error
  /\ lastError (stateOf w2) = Some "BUILD_WEBHOOK_URL not configured."
  /\ retryCount (stateOf w2) = Some (Num 1)
  /\ alarmAt w2 = None
  /\ fetched w2 = []
  /\ timer_consistent w2 = false.
Proof. vm_compute. repeat split; reflexivity. Qed.

(** C3. [queueBuild] does not return for every positive delay: with a
    delay of 8640000000000 seconds requested at 2025-11-02T12:00:00Z, the
    record is stored and the alarm armed for the sum, and the date of the
    log line, beyond the last [Date], throws a [RangeError]. *)
Theorem queueBuild_far_future_throws :
  let outcome :=
    ModeA.queueBuild 1762084800000 "https://example.com/build"
      (Num 8640000000000) empty_world in
  fst outcome = Throw RangeError_time
  /\ scheduledFor (stateOf (snd outcome)) = Some (Num 8641762084800000)
  /\ retryCount (stateOf (snd outcome)) = Some (Num 0)
  /\ alarmAt (snd outcome) = Some (Num 8641762084800000).
Proof. vm_compute. repeat split; reflexivity. Qed.

Lemma queueBuild_stores (now d : Z) (url : string) (w : World) :
  snd (ModeA.queueBuild now url (Num d) w) =
    {| storage := Some (queued now d url (stateOf w));
       alarmAt := Some (Num (now + d * 1000));
       fetched := fetched w |}.
Proof.
  unfold ModeA.queueBuild. run. rewrite round_times_integer. cbn.
  destruct (toISOString _); reflexivity.
Qed.

Lemma toISOString_in_range (t : Z) :
  Z.abs t <= MAX_TIME -> toISOString (Num t) = Return (iso_format t).
Proof.
  intros H. unfold toISOString, TimeClip.
  destruct (Z.leb_spec (Z.abs t) MAX_TIME); [reflexivity | lia].
Qed.

Lemma alarm_range_renderable (now d : Z) :
  0 <= now -> 0 < d -> now + d * 1000 <= LAST_ALARM ->
  Z.abs (now + d * 1000) <= MAX_TIME.
Proof. unfold LAST_ALARM, MAX_TIME. lia. Qed.

Lemma queueBuild_returns (now d : Z) (url : string) (w : World) :
  Z.abs (now + d * 1000) <= MAX_TIME ->
  fst (ModeA.queueBuild now url (Num d) w) =
    Return {| QueueResponse.lastWebhookAt := Num now;
              QueueResponse.scheduledFor := Num (now + d * 1000);
              QueueResponse.delayMs := Num (d * 1000) |}.
Proof.
  intros H. unfold ModeA.queueBuild. run. rewrite round_times_integer. cbn.
  rewrite toISOString_in_range by assumption. reflexivity.
Qed.

Lemma queueBuild_consistent (now d : Z) (url : string) (w : World) :
  timer_consistent (snd (ModeA.queueBuild now url (Num d) w)) = true.
Proof.
  rewrite queueBuild_stores. unfold timer_consistent, stateOf. cbn.
  rewrite bool_decide_eq_true_2 by reflexivity. apply orb_true_r.
Qed.

(** ** The front door *)

Lemma authorized_passes (env : ModeA.Env) (request : ModeA.Request) :
  authorized env request = true ->
  negb (falsy_string (ModeA.WEBHOOK_SECRET env))
  && negb (bool_decide
             (match ModeA.headers request !! "x-webhook-secret" with
              | Some v => Some v
              | None => ModeA.searchParams request !! "secret"
              end = ModeA.WEBHOOK_SECRET env)) = false.
Proof.
  unfold authorized, providedSecret. intros H.
  destruct (falsy_string _); [reflexivity |].
  simpl in H. rewrite H. reflexivity.
Qed.

(** The handler from the point where the method and the secret have been
    accepted. *)
Lemma fetch_post (parseURL : string -> option ModeA.URL)
    (request : ModeA.Request) (env : ModeA.Env) (now : Z) :
  ModeA.method request = "POST" ->
  authorized env request = true ->
  ModeA.fetch parseURL request env now = ModeA.schedule parseURL request now.
Proof.
  intros Hm Ha. unfold ModeA.fetch, ModeA.schedule. rewrite Hm.
  change (String.eqb "POST" "OPTIONS") with false.
  change (String.eqb "POST" "GET") with false.
  change (String.eqb "POST" "POST") with true.
  cbv beta iota zeta. unfold andb at 1. unfold negb at 1.
  rewrite (authorized_passes env request Ha). reflexivity.
Qed.








(** ** Invariants of the stored record *)

Lemma onFailure_world (now : Z) (state : SchedulerState) (thrown : JsValue)
    (w : World) :
  snd (onFailure now state thrown w) =
    match truncateError thrown with
    | Return message =>
        let retryCount' := add (attempts state) (Num 1) in
        let nextAlarm := add (Num now) (ToNumber (getRetryDelayMs retryCount')) in
        {| storage :=
             Some (set_scheduledFor (Some nextAlarm)
                     (set_retryCount (Some retryCount')
                        (set_lastError (Some message)
                           (set_lastBuildStatus (Some error)
                              (set_lastBuildAt (Some (Num now)) state)))));
           alarmAt := Some nextAlarm;
           fetched := fetched w |}
    | Throw _ => w
    end.
Proof.
  unfold onFailure. run. destruct (truncateError thrown); [| reflexivity].
  cbn. destruct (toISOString _); reflexivity.
Qed.

Lemma onFailure_throws (now : Z) (state : SchedulerState) (thrown e : JsValue)
    (w : World) :
  truncateError thrown = Throw e -> onFailure now state thrown w = (Throw e, w).
Proof. intros H. unfold onFailure. run. now rewrite H. Qed.

(** Every write path of [alarm] other than the configuration-error branch
    keeps the stored [scheduledFor] and the wake point in agreement. *)
Lemma alarm_consistent (now : Z) (reply : FetchOutcome) (w : World) :
  timer_consistent w = true ->
  falsy_string (webhookUrl (stateOf w)) = false ->
  timer_consistent (deliver (ModeA.alarm now reply) w) = true.
Proof.
  intros Hc Hurl. unfold deliver.
  assert (stateOf (disarm w) = stateOf w) as Hd by reflexivity.
  destruct (falsy (scheduledFor (stateOf w))) eqn:Hs.
  - rewrite alarm_stale by (rewrite Hd; exact Hs).
    unfold timer_consistent. rewrite Hd, Hs. reflexivity.
  - destruct (truthy_string _ Hurl) as (url & Hu & Hne).
    destruct (failure reply) as [thrown |] eqn:Hf.
    + rewrite (alarm_failure now reply (disarm w) url thrown)
        by (rewrite ?Hd; assumption).
      destruct (truncateError thrown) as [message | e] eqn:Hm.
      * pose proof (onFailure_world now (stateOf (disarm w)) thrown
                      (sent url "POST" (disarm w))) as Hw.
        rewrite Hm in Hw.
        destruct (onFailure _ _ _ _) as [[[] | e] w']; simpl in Hw; subst w';
          unfold timer_consistent, stateOf; cbn;
          rewrite bool_decide_eq_true_2 by reflexivity; apply orb_true_r.
      * rewrite (onFailure_throws _ _ _ e) by assumption. cbn.
        unfold timer_consistent in *. unfold stateOf in *. cbn. exact Hc.
    + destruct reply as [status | reason]; [| discriminate].
      simpl in Hf. destruct (ok status) eqn:Hok; [| discriminate].
      rewrite (alarm_success now status (disarm w) url)
        by (rewrite ?Hd; assumption).
      reflexivity.
Qed.

(** The configuration-error branch, in general: whenever it is taken, the
    stored [scheduledFor] stays and no wake point is left. *)
Lemma alarm_config_error_inconsistent (now : Z) (reply : FetchOutcome) (w : World) :
  falsy (scheduledFor (stateOf w)) = false ->
  falsy_string (webhookUrl (stateOf w)) = true ->
  timer_consistent (deliver (ModeA.alarm now reply) w) = false.
Proof.
  intros Hs Hu. unfold deliver.
  rewrite alarm_config_error by assumption.
  unfold timer_consistent, stateOf, holding. cbn.
  fold (stateOf w). rewrite Hs. cbn.
  apply bool_decide_eq_false_2. destruct (scheduledFor (stateOf w)); discriminate.
Qed.

(** The retry count stays a non-negative integer. *)
Lemma counted_empty : counted empty_world.
Proof. exists 0. split; [reflexivity | lia]. Qed.

Lemma counted_queueBuild (now d : Z) (url : string) (w : World) :
  counted (snd (ModeA.queueBuild now url (Num d) w)).
Proof. rewrite queueBuild_stores. exists 0. split; [reflexivity | lia]. Qed.

Lemma counted_alarm (now : Z) (reply : FetchOutcome) (w : World) :
  counted w -> counted (snd (ModeA.alarm now reply w)).
Proof.
  intros (n & Hn & Hpos).
  destruct (falsy (scheduledFor (stateOf w))) eqn:Hs.
  { rewrite alarm_stale by assumption. exists n. auto. }
  destruct (falsy_string (webhookUrl (stateOf w))) eqn:Hurl.
  { rewrite alarm_config_error by assumption. exists (n + 1).
    unfold attempts, stateOf, holding. cbn. fold (stateOf w).
    fold (attempts (stateOf w)). rewrite Hn. split; [reflexivity | lia]. }
  destruct (truthy_string _ Hurl) as (url & Hu & Hne).
  destruct (failure reply) as [thrown |] eqn:Hf.
  - rewrite (alarm_failure now reply w url thrown) by assumption.
    rewrite onFailure_world. destruct (truncateError thrown).
    + exists (n + 1). unfold attempts at 1. unfold stateOf at 1. cbn.
      rewrite Hn. split; [reflexivity | lia].
    + exists n. auto.
  - destruct reply as [status | reason]; [| discriminate].
    simpl in Hf. destruct (ok status) eqn:Hok; [| discriminate].
    rewrite (alarm_success now status w url) by assumption.
    exists 0. split; [reflexivity | lia].
Qed.

(** The same branch of revision B, taken whenever the deployment has no
    target URL. *)
Lemma alarm_unconfigured_inconsistent (env : ModeB.Env) (now : Z)
    (reply : FetchOutcome) (w : World) :
  falsy (scheduledFor (stateOf w)) = false ->
  falsy_string (ModeB.BUILD_WEBHOOK_URL env) = true ->
  timer_consistent (deliver (ModeB.alarm env now reply) w) = false.
Proof.
  intros Hs Hu. unfold deliver, ModeB.alarm. run.
  fold (stateOf w). rewrite Hs, Hu. cbn.
  unfold timer_consistent, stateOf. cbn. fold (stateOf w). rewrite Hs. cbn.
  apply bool_decide_eq_false_2. destruct (scheduledFor (stateOf w)); discriminate.
Qed.

(** ** Two runs of the scheduler *)

(** A request with a delay of 60 s at time 0; the trigger call fails with
    HTTP 500 at 60000 and succeeds at 120000. *)
Example retry_then_success :
  let w0 := snd (ModeA.queueBuild 0 "https://example.com/build" (Num 60)
                   empty_world) in
  let w1 := deliver (ModeA.alarm 60000 (Responded 500)) w0 in
  let w2 := deliver (ModeA.alarm 120000 (Responded 200)) w1 in
  scheduledFor (stateOf w0) = Some (Num 60000)
  /\ lastBuildStatus (stateOf w1) = Some error
  /\ retryCount (stateOf w1) = Some (Num 1)
  /\ scheduledFor (stateOf w1) = Some (Num 120000)
  /\ alarmAt w1 = Some (Num 120000)
  /\ lastBuildStatus (stateOf w2) = Some success
  /\ retryCount (stateOf w2) = Some (Num 0)
  /\ scheduledFor (stateOf w2) = None
  /\ alarmAt w2 = None.
Proof. vm_compute. repeat split; reflexivity. Qed.

(** A second request, with a delay of 30 s at time 10000, replaces the
    pending execution of a first one scheduled for 60000. *)
Example second_request_supersedes :
  let w0 := snd (ModeA.queueBuild 0 "https://example.com/build" (Num 60)
                   empty_world) in
  let w1 := snd (ModeA.queueBuild 10000 "https://example.com/build" (Num 30)
                   w0) in
  scheduledFor (stateOf w1) = Some (Num 40000)
  /\ alarmAt w1 = Some (Num 40000)
  /\ fetched w1 = [].
Proof. vm_compute. repeat split; reflexivity. Qed.

(** * Further properties of the code *)

(** ** [queueBuild] *)

(** X1. For a positive delay whose scheduled time is within the range of
    the alarm, [queueBuild] returns the request time, the scheduled time
    and the delay in milliseconds, having stored them with the target and
    a retry count of 0, kept the three properties of the last execution,
    armed the alarm for the scheduled time and sent nothing. *)
Theorem queueBuild_effect (now d : Z) (url : string) (w : World) :
  0 <= now -> 0 < d -> now + d * 1000 <= LAST_ALARM ->
  let w' := snd (ModeA.queueBuild now url (Num d) w) in
  fst (ModeA.queueBuild now url (Num d) w)
  = Return {| QueueResponse.lastWebhookAt := Num now;
              QueueResponse.scheduledFor := Num (now + d * 1000);
              QueueResponse.delayMs := Num (d * 1000) |}
  /\ lastWebhookAt (stateOf w') = Some (Num now)
  /\ scheduledFor (stateOf w') = Some (Num (now + d * 1000))
  /\ delayMs (stateOf w') = Some (Num (d * 1000))
  /\ retryCount (stateOf w') = Some (Num 0)
  /\ webhookUrl (stateOf w') = Some url
  /\ lastBuildAt (stateOf w') = lastBuildAt (stateOf w)
  /\ lastBuildStatus (stateOf w') = lastBuildStatus (stateOf w)
  /\ lastError (stateOf w') = lastError (stateOf w)
  /\ storage w' = Some (stateOf w')
  /\ alarmAt w' = Some (Num (now + d * 1000))
  /\ fetched w' = fetched w.
Proof.
  intros Hnow Hd Hrange w'. subst w'.
  split; [now apply queueBuild_returns, alarm_range_renderable |].
  rewrite queueBuild_stores. cbn. tauto.
Qed.

Lemma queueBuild_effect_witness :
  ModeA.queueBuild 1762084800000 "https://example.com/build" (Num 60)
    (pending_world 4)
  = (Return {| QueueResponse.lastWebhookAt := Num 1762084800000;
               QueueResponse.scheduledFor := Num 1762084860000;
               QueueResponse.delayMs := Num 60000 |},
     {| storage :=
          Some (queued 1762084800000 60 "https://example.com/build" (pending 4));
        alarmAt := Some (Num 1762084860000);
        fetched := [] |}).
Proof.
  pose proof (queueBuild_effect 1762084800000 60 "https://example.com/build"
                (pending_world 4)) as H.
  destruct H as (Hr & _); [lia | lia | unfold LAST_ALARM; lia |].
  rewrite (surjective_pairing (ModeA.queueBuild _ _ _ _)), Hr.
  reflexivity.
Defined.

(** X3. A second [queueBuild], with a positive delay whose scheduled time
    is within the range of the alarm, leaves no trace of the first: the
    world is the one the second call alone would have produced. *)
Theorem queueBuild_supersedes (now1 d1 now2 d2 : Z) (url1 url2 : string)
    (w : World) :
  0 <= now2 -> 0 < d2 -> now2 + d2 * 1000 <= LAST_ALARM ->
  snd (ModeA.queueBuild now2 url2 (Num d2)
         (snd (ModeA.queueBuild now1 url1 (Num d1) w)))
  = snd (ModeA.queueBuild now2 url2 (Num d2) w).
Proof. intros _ _ _. rewrite !queueBuild_stores. reflexivity. Qed.

Lemma queueBuild_supersedes_witness :
  snd (ModeA.queueBuild 10000 "https://example.com/other" (Num 30)
         (snd (ModeA.queueBuild 0 "https://example.com/build" (Num 60)
                 empty_world)))
  = snd (ModeA.queueBuild 10000 "https://example.com/other" (Num 30) empty_world).
Proof.
  apply (queueBuild_supersedes 0 60 10000 30); [lia | lia | unfold LAST_ALARM; lia].
Defined.

(** ** [getStatus] *)

Lemma toIso_rendered (value : option number) :
  toIso value = if renderable value then Return (rendered value)
                else Throw RangeError_time.
Proof.
  unfold toIso, renderable, rendered.
  destruct value as [[| z] |]; try reflexivity. cbn.
  destruct (Z.eqb_spec z 0) as [-> | Hz]; [reflexivity |]. cbn.
  unfold toISOString, TimeClip.
  destruct (Z.abs z <=? MAX_TIME); reflexivity.
Qed.

(** [getStatus] as one equation. *)
Lemma getStatus_run (w : World) :
  ModeA.getStatus w =
    (if renderable (lastWebhookAt (stateOf w))
        && renderable (scheduledFor (stateOf w))
        && renderable (lastBuildAt (stateOf w))
     then Return
       {| StatusResponse.lastWebhookAt := rendered (lastWebhookAt (stateOf w));
          StatusResponse.scheduledFor := rendered (scheduledFor (stateOf w));
          StatusResponse.lastBuildAt := rendered (lastBuildAt (stateOf w));
          StatusResponse.lastBuildStatus := lastBuildStatus (stateOf w);
          StatusResponse.lastError := lastError (stateOf w);
          StatusResponse.retryCount := attempts (stateOf w);
          StatusResponse.delayMs := delayMs (stateOf w);
          StatusResponse.webhookUrl := webhookUrl (stateOf w) |}
     else Throw RangeError_time,
     w).
Proof.
  unfold ModeA.getStatus. run. fold (stateOf w). rewrite !toIso_rendered.
  destruct (renderable (lastWebhookAt (stateOf w))); [| reflexivity].
  destruct (renderable (scheduledFor (stateOf w))); [| reflexivity].
  destruct (renderable (lastBuildAt (stateOf w))); reflexivity.
Qed.

(** X4. [getStatus] never changes the world.  When the three stored times
    are unset, 0 or within the range of [Date], it returns them rendered
    (0 and unset as absent), the retry count with 0 for unset, and the
    other properties as stored; otherwise it throws a [RangeError]. *)
Theorem getStatus_projection (w : World) :
  snd (ModeA.getStatus w) = w
  /\ fst (ModeA.getStatus w) =
       (if renderable (lastWebhookAt (stateOf w))
           && renderable (scheduledFor (stateOf w))
           && renderable (lastBuildAt (stateOf w))
        then Return
          {| StatusResponse.lastWebhookAt := rendered (lastWebhookAt (stateOf w));
             StatusResponse.scheduledFor := rendered (scheduledFor (stateOf w));
             StatusResponse.lastBuildAt := rendered (lastBuildAt (stateOf w));
             StatusResponse.lastBuildStatus := lastBuildStatus (stateOf w);
             StatusResponse.lastError := lastError (stateOf w);
             StatusResponse.retryCount := attempts (stateOf w);
             StatusResponse.delayMs := delayMs (stateOf w);
             StatusResponse.webhookUrl := webhookUrl (stateOf w) |}
        else Throw RangeError_time).
Proof.
  rewrite getStatus_run. split; reflexivity.
Qed.

(** X5. After a request whose scheduled time lies beyond the last [Date],
    the stored record cannot be rendered any more: [getStatus] throws, and
    so does the status query of the front door, until another request
    replaces the record. *)
Theorem status_fails_after_far_future (parseURL : string -> option ModeA.URL)
    (env : ModeA.Env) (now d later : Z) (url : string) (w : World) :
  MAX_TIME < now + d * 1000 ->
  let w' := snd (ModeA.queueBuild now url (Num d) w) in
  ModeA.getStatus w' = (Throw RangeError_time, w')
  /\ ModeA.fetch parseURL status_request env later w'
     = (Throw RangeError_time, w').
Proof.
  intros Hfar w'.
  assert (ModeA.getStatus w' = (Throw RangeError_time, w')) as Hs.
  { rewrite getStatus_run. subst w'. rewrite queueBuild_stores.
    unfold stateOf. cbn.
    assert (renderable (Some (Num (now + d * 1000))) = false) as ->.
    { unfold renderable. cbn.
      destruct (Z.eqb_spec (now + d * 1000) 0); [unfold MAX_TIME in Hfar; lia |].
      cbn.
      destruct (Z.leb_spec (Z.abs (now + d * 1000)) MAX_TIME); [lia | reflexivity]. }
    destruct (renderable (Some (Num now))); reflexivity. }
  split; [exact Hs |].
  unfold ModeA.fetch. cbn. unfold mbind, DO_bind. rewrite Hs. reflexivity.
Qed.

Lemma status_fails_after_far_future_witness :
  let w' := snd (ModeA.queueBuild 1762084800000 "https://example.com/build"
                   (Num 8640000000000) empty_world) in
  ModeA.getStatus w' = (Throw RangeError_time, w')
  /\ ModeA.fetch sampleURL status_request open_env 1762084900000 w'
     = (Throw RangeError_time, w').
Proof.
  apply (status_fails_after_far_future sampleURL open_env 1762084800000
           8640000000000 1762084900000 "https://example.com/build" empty_world);
    unfold MAX_TIME; lia.
Defined.

(** ** The backoff table *)

(** X6. [getRetryDelayMs] is defined exactly on the positive attempt
    counts, where it lies between one and five minutes; on 0, on negative
    counts and on [NaN] it is [undefined]. *)
Theorem getRetryDelayMs_domain (attempt : Z) :
  getRetryDelayMs NaN = None
  /\ (if 1 <=? attempt
      then exists delay,
             getRetryDelayMs (Num attempt) = Some (Num delay)
             /\ 60000 <= delay <= 300000
      else getRetryDelayMs (Num attempt) = None).
Proof.
  split; [reflexivity |].
  destruct (Z.leb_spec 1 attempt) as [H | H].
  - exists (backoff attempt). split; [now apply getRetryDelayMs_attempt |].
    unfold backoff. destruct (attempt =? 1); [lia |].
    destruct (attempt =? 2); lia.
  - apply getRetryDelayMs_undefined. lia.
Qed.

(** X7. The retry delay never shrinks as failures accumulate. *)
Theorem getRetryDelayMs_monotone (a b da db : Z) :
  1 <= a -> a <= b ->
  getRetryDelayMs (Num a) = Some (Num da) ->
  getRetryDelayMs (Num b) = Some (Num db) ->
  da <= db.
Proof.
  intros Ha Hab. rewrite !getRetryDelayMs_attempt by lia.
  intros [= <-] [= <-]. unfold backoff.
  destruct (Z.eqb_spec a 1); destruct (Z.eqb_spec b 1);
    destruct (Z.eqb_spec a 2); destruct (Z.eqb_spec b 2); lia.
Qed.

Lemma getRetryDelayMs_monotone_witness :
  getRetryDelayMs (Num 2) = Some (Num 120000)
  /\ getRetryDelayMs (Num 9) = Some (Num 300000)
  /\ 120000 <= 300000.
Proof.
  split; [reflexivity |]. split; [reflexivity |].
  apply (getRetryDelayMs_monotone 2 9 120000 300000); first [lia | reflexivity].
Defined.

(** ** What [alarm] does and does not touch *)

(** The four ways through [alarm]. *)
Lemma alarm_cases (now : Z) (reply : FetchOutcome) (w : World) :
  ModeA.alarm now reply w = (Return tt, w)
  \/ (falsy (scheduledFor (stateOf w)) = false
      /\ falsy_string (webhookUrl (stateOf w)) = true
      /\ ModeA.alarm now reply w =
           (Return tt,
            holding
              (set_retryCount (Some (add (attempts (stateOf w)) (Num 1)))
                 (set_lastError (Some "No webhook URL available for execution.")
                    (set_lastBuildStatus (Some error)
                       (set_lastBuildAt (Some (Num now)) (stateOf w))))) w))
  \/ (exists url,
        falsy (scheduledFor (stateOf w)) = false
        /\ webhookUrl (stateOf w) = Some url /\ url <> ""
        /\ ((exists status,
               reply = Responded status /\ ok status = true
               /\ ModeA.alarm now reply w =
                    (Return tt,
                     holding
                       (set_scheduledFor None
                          (set_retryCount (Some (Num 0))
                             (set_lastError None
                                (set_lastBuildStatus (Some success)
                                   (set_lastBuildAt (Some (Num now)) (stateOf w))))))
                       (sent url "POST" w)))
            \/ (exists thrown,
                  failure reply = Some thrown
                  /\ ModeA.alarm now reply w
                     = onFailure now (stateOf w) thrown (sent url "POST" w)))).
Proof.
  destruct (falsy (scheduledFor (stateOf w))) eqn:Hs.
  { left. now apply alarm_stale. }
  destruct (falsy_string (webhookUrl (stateOf w))) eqn:Hurl.
  { right. left. repeat split; try reflexivity. now apply alarm_config_error. }
  right. right.
  destruct (truthy_string _ Hurl) as (url & Hu & Hne).
  exists url. repeat split; try assumption.
  destruct (failure reply) as [thrown |] eqn:Hf.
  - right. exists thrown. split; [reflexivity |]. now apply alarm_failure.
  - left. destruct reply as [status | reason]; [| discriminate].
    simpl in Hf. destruct (ok status) eqn:Hok; [| discriminate].
    exists status. repeat split; try assumption. now apply alarm_success.
Qed.

(** X8. One run of [alarm] sends at most one request, and only ever a POST
    to the [webhookUrl] of the stored record. *)
Theorem alarm_sends_at_most_once (now : Z) (reply : FetchOutcome) (w : World) :
  fetched (snd (ModeA.alarm now reply w)) = fetched w
  \/ exists url,
       webhookUrl (stateOf w) = Some url /\ url <> ""
       /\ fetched (snd (ModeA.alarm now reply w))
          = (fetched w ++ [(url, "POST")])%list.
Proof.
  destruct (alarm_cases now reply w)
    as [-> | [(_ & _ & ->) | (url & _ & Hu & Hne & [(s & _ & _ & ->) | (t & _ & ->)])]];
    try (left; reflexivity); right; exists url; repeat split; try assumption.
  rewrite onFailure_world. destruct (truncateError t); reflexivity.
Qed.

(** X9. Whatever the reply, [alarm] leaves to [queueBuild] what
    [queueBuild] wrote: the request time, the delay and the target of the
    stored record are the same afterwards. *)
Theorem alarm_keeps_request (now : Z) (reply : FetchOutcome) (w : World) :
  let w' := snd (ModeA.alarm now reply w) in
  lastWebhookAt (stateOf w') = lastWebhookAt (stateOf w)
  /\ delayMs (stateOf w') = delayMs (stateOf w)
  /\ webhookUrl (stateOf w') = webhookUrl (stateOf w).
Proof.
  intros w'. subst w'.
  destruct (alarm_cases now reply w)
    as [-> | [(_ & _ & ->) | (url & _ & Hu & Hne & [(s & _ & _ & ->) | (t & _ & ->)])]];
    try (repeat split; reflexivity).
  rewrite onFailure_world. destruct (truncateError t); repeat split; reflexivity.
Qed.

(** X10. When the failure has no description, that is when
    [truncateError] throws on the caught value, [alarm] throws after
    sending the request with nothing stored and nothing armed; delivered by
    the runtime, the record and the wake point are as before. *)
Theorem alarm_undescribed_failure (now : Z) (reply : FetchOutcome) (w : World)
    (url : string) (thrown e : JsValue) :
  falsy (scheduledFor (stateOf w)) = false ->
  webhookUrl (stateOf w) = Some url -> url <> "" ->
  failure reply = Some thrown ->
  truncateError thrown = Throw e ->
  ModeA.alarm now reply w = (Throw e, sent url "POST" w)
  /\ storage (deliver (ModeA.alarm now reply) w) = storage w
  /\ alarmAt (deliver (ModeA.alarm now reply) w) = alarmAt w.
Proof.
  intros Hs Hu Hne Hf Ht.
  assert (forall v, stateOf v = stateOf w ->
            ModeA.alarm now reply v = (Throw e, sent url "POST" v)) as H.
  { intros v Hv. rewrite (alarm_failure now reply v url thrown)
      by (rewrite ?Hv; assumption).
    now apply onFailure_throws. }
  split; [now apply H |].
  unfold deliver. rewrite (H (disarm w)) by reflexivity. cbn. split; reflexivity.
Qed.

Lemma alarm_undescribed_failure_witness :
  ModeA.alarm 60000 (Rejected (JsOther JsonThrows)) (pending_world 1)
  = (Throw TypeError_stringify,
     sent "https://example.com/build" "POST" (pending_world 1)).
Proof.
  apply (alarm_undescribed_failure 60000 (Rejected (JsOther JsonThrows))
           (pending_world 1) "https://example.com/build"
           (JsOther JsonThrows) TypeError_stringify);
    first [reflexivity | discriminate].
Defined.

(** ** Invariants over every run of revision A *)

Lemma deliver_state (handler : DO unit) (w : World) :
  storage (deliver handler w) = storage (snd (handler (disarm w)))
  /\ fetched (deliver handler w) = fetched (snd (handler (disarm w))).
Proof.
  unfold deliver. destruct (handler (disarm w)) as [[[] | e] w']; cbn;
    [split; reflexivity |].
  destruct (alarmAt w'); split; reflexivity.
Qed.

Lemma deliver_armed (handler : DO unit) (w : World) :
  alarmAt (snd (handler (disarm w))) <> None ->
  deliver handler w = snd (handler (disarm w)).
Proof.
  unfold deliver. destruct (handler (disarm w)) as [[[] | e] w']; cbn;
    [reflexivity |].
  destruct (alarmAt w'); [reflexivity | congruence].
Qed.

Lemma targeted_alarm (now : Z) (reply : FetchOutcome) (w : World) :
  targeted w = true -> targeted (snd (ModeA.alarm now reply w)) = true.
Proof.
  intros Ht.
  destruct (alarm_cases now reply w)
    as [-> | [(Hs & Hu & _) | (url & Hs & Hu & Hne & [(s & _ & _ & ->) | (t & _ & ->)])]].
  - assumption.
  - unfold targeted in Ht. rewrite Hs, Hu in Ht. discriminate.
  - reflexivity.
  - rewrite onFailure_world. destruct (truncateError t); [| assumption].
    unfold targeted, stateOf. cbn. fold (stateOf w). rewrite Hu. cbn.
    destruct (String.eqb_spec url ""); [contradiction |]. apply orb_true_r.
Qed.

Lemma step_invariant (e : Event) (w : World) :
  addressed e = true ->
  timer_consistent w = true /\ counted w /\ targeted w = true ->
  timer_consistent (step w e) = true /\ counted (step w e)
  /\ targeted (step w e) = true.
Proof.
  intros He (Hc & Hn & Ht). destruct e as [now url d | now reply]; cbn.
  - split; [apply queueBuild_consistent |]. split; [apply counted_queueBuild |].
    rewrite queueBuild_stores. unfold targeted, stateOf. cbn.
    cbn in He. rewrite He. apply orb_true_r.
  - assert (stateOf (disarm w) = stateOf w) as Hd by reflexivity.
    destruct (deliver_state (ModeA.alarm now reply) w) as (Hst & _).
    split; [| split].
    + destruct (falsy (scheduledFor (stateOf w))) eqn:Hs.
      * unfold deliver. rewrite alarm_stale by (rewrite Hd; exact Hs).
        unfold timer_consistent. rewrite Hd, Hs. reflexivity.
      * apply alarm_consistent; [assumption |].
        unfold targeted in Ht. rewrite Hs in Ht. cbn in Ht.
        now apply negb_true_iff in Ht.
    + assert (counted (disarm w)) as Hn' by exact Hn.
      apply (counted_alarm now reply) in Hn'.
      unfold counted, stateOf in *. rewrite Hst. exact Hn'.
    + assert (targeted (disarm w) = true) as Ht' by exact Ht.
      apply (targeted_alarm now reply) in Ht'.
      unfold targeted, stateOf in *. rewrite Hst. exact Ht'.
Qed.

(** X11. From an empty storage, through any sequence of [queueBuild] calls
    with a non-empty target and a positive delay scheduled within the
    range of the alarm, and of alarm deliveries with any replies, the
    stored [scheduledFor] agrees with the armed alarm, the retry count is a
    non-negative integer, and a pending record has a target: revision A
    never reaches its own configuration-error branch. *)
Theorem run_invariants (events : list Event) :
  forallb schedulable events = true ->
  let w := run_events events empty_world in
  timer_consistent w = true /\ counted w /\ targeted w = true.
Proof.
  intros H. cbv zeta. unfold run_events.
  assert (forallb addressed events = true) as H'.
  { apply forallb_forall. intros e He.
    pose proof (proj1 (forallb_forall schedulable events) H e He) as Hs.
    destruct e as [now url d | now reply]; [| reflexivity].
    cbn in *. now destruct (String.eqb url ""). }
  clear H. rename H' into H.
  assert (timer_consistent empty_world = true /\ counted empty_world
          /\ targeted empty_world = true) as H0.
  { split; [reflexivity |]. split; [apply counted_empty | reflexivity]. }
  revert H H0. generalize empty_world.
  induction events as [| e events IH]; intros w H H0; cbn; [exact H0 |].
  cbn in H. apply andb_true_iff in H as [He H].
  apply IH; [exact H |]. now apply step_invariant.
Qed.

Lemma run_invariants_witness :
  let w := run_events
             [Queue 0 "https://example.com/build" 60;
              Fire 60000 (Responded 500);
              Queue 70000 "https://example.com/other" 30;
              Fire 100000 (Rejected (JsError "Network connection lost."));
              Fire 102000 (Responded 200)] empty_world in
  timer_consistent w = true /\ counted w /\ targeted w = true.
Proof.
  apply (run_invariants
           [Queue 0 "https://example.com/build" 60;
            Fire 60000 (Responded 500);
            Queue 70000 "https://example.com/other" 30;
            Fire 100000 (Rejected (JsError "Network connection lost."));
            Fire 102000 (Responded 200)]).
  reflexivity.
Defined.

(** One failed delivery on a pending record. *)
Lemma deliver_failed (now status n : Z) (w : World) (url : string) :
  ok status = false ->
  falsy (scheduledFor (stateOf w)) = false ->
  webhookUrl (stateOf w) = Some url -> url <> "" ->
  attempts (stateOf w) = Num n -> 0 <= n ->
  deliver (ModeA.alarm now (Responded status)) w =
    {| storage :=
         Some (failed now (n + 1)
                 (truncated ("Build webhook responded with HTTP " ++ decimal status))
                 (stateOf w));
       alarmAt := Some (Num (now + backoff (n + 1)));
       fetched := (fetched w ++ [(url, "POST")])%list |}.
Proof.
  intros Hok Hs Hu Hne Hn Hpos.
  assert (snd (ModeA.alarm now (Responded status) (disarm w)) =
            {| storage :=
                 Some (failed now (n + 1)
                         (truncated ("Build webhook responded with HTTP "
                                     ++ decimal status))
                         (stateOf w));
               alarmAt := Some (Num (now + backoff (n + 1)));
               fetched := (fetched w ++ [(url, "POST")])%list |}) as H.
  { rewrite (alarm_failure now (Responded status) (disarm w) url
               (JsError ("Build webhook responded with HTTP " ++ decimal status)))
      by (try assumption; cbn; now rewrite Hok).
    rewrite (onFailure_stores now n _ _
               (truncated ("Build webhook responded with HTTP " ++ decimal status)))
      by (try assumption; apply truncateError_message).
    reflexivity. }
  rewrite deliver_armed; rewrite H; [reflexivity | discriminate].
Qed.

(** X12. Retries go on without a cap: on a pending record with retry count
    [n], any number of consecutive deliveries answered with a failure
    status, at non-negative times, leaves the retry count at [n] plus that
    number with one POST to the target sent per delivery, and the alarm
    armed for the last delivery time plus its backoff delay. *)
Theorem consecutive_failures (status : Z) (nows : list Z) (n : Z) (w : World)
    (url : string) :
  ok status = false ->
  Forall (fun now => 0 <= now) nows ->
  falsy (scheduledFor (stateOf w)) = false ->
  webhookUrl (stateOf w) = Some url -> url <> "" ->
  attempts (stateOf w) = Num n -> 0 <= n ->
  let w' := run_events (map (fun now => Fire now (Responded status)) nows) w in
  let count := n + Z.of_nat (List.length nows) in
  attempts (stateOf w') = Num count
  /\ fetched w' = (fetched w ++ repeat (url, "POST") (List.length nows))%list
  /\ (nows <> [] ->
      scheduledFor (stateOf w') = Some (Num (List.last nows 0 + backoff count))
      /\ alarmAt w' = Some (Num (List.last nows 0 + backoff count))
      /\ lastBuildStatus (stateOf w') = Some error).
Proof.
  intros Hok Hnows. revert n w.
  induction Hnows as [| now nows Hnow Hrest IH]; intros n w Hs Hu Hne Hn Hpos.
  - cbn. rewrite Z.add_0_r, app_nil_r. repeat split; try assumption;
      contradiction.
  - cbn [map run_events fold_left step].
    pose proof (deliver_failed now status n w url Hok Hs Hu Hne Hn Hpos) as Hd.
    set (w1 := deliver (ModeA.alarm now (Responded status)) w) in *.
    assert (falsy (scheduledFor (stateOf w1)) = false) as Hs1.
    { rewrite Hd. unfold stateOf. cbn.
      assert (0 < backoff (n + 1)) by
        (unfold backoff; destruct (n + 1 =? 1); [lia |];
         destruct (n + 1 =? 2); lia).
      destruct (Z.eqb_spec (now + backoff (n + 1)) 0); [lia | reflexivity]. }
    assert (webhookUrl (stateOf w1) = Some url) as Hu1
      by (rewrite Hd; exact Hu).
    assert (attempts (stateOf w1) = Num (n + 1)) as Hn1
      by (rewrite Hd; reflexivity).
    specialize (IH (n + 1) w1 Hs1 Hu1 Hne Hn1 ltac:(lia)).
    cbv zeta in IH. unfold run_events in IH.
    destruct IH as (Ha & Hf & Hl).
    replace (n + Z.of_nat (List.length (now :: nows)))
      with (n + 1 + Z.of_nat (List.length nows))
      by (cbn [List.length]; lia).
    split; [exact Ha | split].
    + rewrite Hf, Hd. cbn. now rewrite <- app_assoc.
    + intros _. destruct nows as [| now' nows'].
      * cbn. rewrite Hd. cbn. rewrite Z.add_0_r. repeat split; reflexivity.
      * apply Hl. discriminate.
Qed.

Lemma consecutive_failures_witness :
  let w' := run_events
              (map (fun now => Fire now (Responded 503))
                 [60000; 120000; 240000; 540000; 840000])
              (pending_world 0) in
  attempts (stateOf w') = Num 5
  /\ alarmAt w' = Some (Num (840000 + 300000)).
Proof.
  destruct (consecutive_failures 503 [60000; 120000; 240000; 540000; 840000]
              0 (pending_world 0) "https://example.com/build")
    as (Ha & _ & Hl);
    first [reflexivity | discriminate | lia | idtac].
  - repeat constructor; lia.
  - split; [exact Ha |]. apply Hl. discriminate.
Defined.

(** ** The front door of revision A *)

Lemma unauthorized_post (parseURL : string -> option ModeA.URL)
    (request : ModeA.Request) (env : ModeA.Env) (now : Z) (w : World)
    (secret : string) :
  ModeA.method request = "POST" ->
  ModeA.WEBHOOK_SECRET env = Some secret -> secret <> "" ->
  providedSecret request <> Some secret ->
  ModeA.fetch parseURL request env now w
  = (Return {| ModeA.status := 401; ModeA.body := ModeA.Text "Unauthorized" |}, w).
Proof.
  intros Hm Hs Hne Hp. unfold ModeA.fetch. rewrite Hm, Hs.
  change (String.eqb "POST" "OPTIONS") with false.
  change (String.eqb "POST" "GET") with false.
  change (String.eqb "POST" "POST") with true.
  cbv beta iota zeta. unfold andb at 1. unfold negb at 1.
  fold (providedSecret request).
  assert (falsy_string (Some secret) = false) as ->.
  { cbn. destruct (String.eqb_spec secret ""); [contradiction | reflexivity]. }
  rewrite bool_decide_eq_false_2 by exact Hp. reflexivity.
Qed.

(** X13. With a secret configured, a POST request that does not present
    exactly that secret is answered 401 whatever its other headers, and
    the object is not called; so it is in both revisions. *)
Theorem fetch_unauthorized (parseURL : string -> option ModeA.URL)
    (request : ModeA.Request) (envA : ModeA.Env) (envB : ModeB.Env)
    (now : Z) (w : World) (secret : string) :
  ModeA.method request = "POST" ->
  ModeA.WEBHOOK_SECRET envA = Some secret ->
  ModeB.WEBHOOK_SECRET envB = Some secret ->
  secret <> "" ->
  providedSecret request <> Some secret ->
  ModeA.fetch parseURL request envA now w
  = (Return {| ModeA.status := 401; ModeA.body := ModeA.Text "Unauthorized" |}, w)
  /\ ModeB.fetch request envB now w
     = (Return {| ModeB.status := 401; ModeB.body := ModeB.Text "Unauthorized" |},
        w).
Proof.
  intros Hm Ha Hb Hne Hp. split; [now apply (unauthorized_post _ _ _ _ _ secret) |].
  unfold ModeB.fetch. rewrite Hm, Hb.
  change (String.eqb "POST" "OPTIONS") with false.
  change (String.eqb "POST" "GET") with false.
  change (String.eqb "POST" "POST") with true.
  cbv beta iota zeta. unfold andb at 1. unfold negb at 1.
  fold (providedSecret request).
  assert (falsy_string (Some secret) = false) as ->.
  { cbn. destruct (String.eqb_spec secret ""); [contradiction | reflexivity]. }
  rewrite bool_decide_eq_false_2 by exact Hp. reflexivity.
Qed.

Lemma fetch_unauthorized_witness :
  ModeA.fetch sampleURL (schedule_request "https://example.com/build" "60")
    guarded_env 0 empty_world
  = (Return {| ModeA.status := 401; ModeA.body := ModeA.Text "Unauthorized" |},
     empty_world)
  /\ ModeB.fetch (schedule_request "https://example.com/build" "60")
       configured 0 empty_world
     = (Return {| ModeB.status := 401; ModeB.body := ModeB.Text "Unauthorized" |},
        empty_world).
Proof.
  apply (fetch_unauthorized sampleURL
           (schedule_request "https://example.com/build" "60")
           guarded_env configured 0 empty_world "s3cret");
    first [reflexivity | discriminate].
Defined.

(** X14. The secret of the [x-webhook-secret] header takes precedence over
    the [secret] query parameter: a header that is present and wrong, were
    it empty, is answered 401 even when the query parameter is right; the
    query parameter counts only when the header is absent. *)
Theorem secret_header_precedence (parseURL : string -> option ModeA.URL)
    (request : ModeA.Request) (env : ModeA.Env) (now : Z) (w : World)
    (secret : string) :
  ModeA.method request = "POST" ->
  ModeA.WEBHOOK_SECRET env = Some secret -> secret <> "" ->
  ModeA.searchParams request !! "secret" = Some secret ->
  (forall v, ModeA.headers request !! "x-webhook-secret" = Some v -> v <> secret ->
     ModeA.fetch parseURL request env now w
     = (Return {| ModeA.status := 401; ModeA.body := ModeA.Text "Unauthorized" |},
        w))
  /\ (ModeA.headers request !! "x-webhook-secret" = None ->
      ModeA.fetch parseURL request env now w
      = ModeA.schedule parseURL request now w).
Proof.
  intros Hm Hs Hne Hq. split.
  - intros v Hv Hneq. apply (unauthorized_post _ _ _ _ _ secret); try assumption.
    unfold providedSecret. rewrite Hv. congruence.
  - intros Hh. rewrite fetch_post; [reflexivity | assumption |].
    unfold authorized, providedSecret. rewrite Hh, Hq, Hs.
    rewrite bool_decide_eq_true_2 by reflexivity. apply orb_true_r.
Qed.

Lemma secret_header_precedence_witness :
  let request :=
    {| ModeA.method := "POST"; ModeA.pathname := "/";
       ModeA.headers := {[ "x-webhook-secret" := "";
                           "x-webhook-url" := "https://example.com/build";
                           "x-delay-seconds" := "60" ]};
       ModeA.searchParams := {[ "secret" := "s3cret" ]} |} in
  ModeA.fetch sampleURL request guarded_env 0 empty_world
  = (Return {| ModeA.status := 401; ModeA.body := ModeA.Text "Unauthorized" |},
     empty_world).
Proof.
  intros request.
  refine (proj1 (secret_header_precedence sampleURL request guarded_env 0
                   empty_world "s3cret" eq_refl eq_refl _ eq_refl) "" eq_refl _);
    discriminate.
Defined.

(** X15. Requests that are not schedule requests are answered before any
    secret is looked at and without calling the object: OPTIONS with 204
    and no body, and every method other than OPTIONS and POST, the status
    query apart, with 404. *)
Theorem fetch_routing (parseURL : string -> option ModeA.URL)
    (request : ModeA.Request) (env : ModeA.Env) (now : Z) (w : World) :
  ModeA.method request <> "POST" ->
  ~ (ModeA.method request = "GET" /\ ModeA.pathname request = "/status") ->
  ModeA.fetch parseURL request env now w
  = (Return (if String.eqb (ModeA.method request) "OPTIONS"
             then {| ModeA.status := 204; ModeA.body := ModeA.NoBody |}
             else {| ModeA.status := 404; ModeA.body := ModeA.Text "Not Found" |}),
     w).
Proof.
  intros Hp Hg. unfold ModeA.fetch.
  destruct (String.eqb (ModeA.method request) "OPTIONS"); [reflexivity |].
  destruct (String.eqb_spec (ModeA.method request) "GET") as [Hget | _];
    destruct (String.eqb_spec (ModeA.pathname request) "/status") as [Hst | _];
    cbn [andb]; try (exfalso; apply Hg; split; assumption);
    (destruct (String.eqb_spec (ModeA.method request) "POST");
     [contradiction | reflexivity]).
Qed.

Lemma fetch_routing_witness :
  ModeA.fetch sampleURL
    {| ModeA.method := "DELETE"; ModeA.pathname := "/status";
       ModeA.headers := ∅; ModeA.searchParams := ∅ |}
    guarded_env 0 (pending_world 0)
  = (Return {| ModeA.status := 404; ModeA.body := ModeA.Text "Not Found" |},
     pending_world 0).
Proof.
  apply (fetch_routing sampleURL
           {| ModeA.method := "DELETE"; ModeA.pathname := "/status";
              ModeA.headers := ∅; ModeA.searchParams := ∅ |}
           guarded_env 0 (pending_world 0)).
  - discriminate.
  - intros [H _]. discriminate H.
Defined.

(** X16. The status query needs no secret and changes nothing: GET
    [/status] is answered with what [getStatus] returns, or throws what it
    throws, also when a secret is configured and none is presented. *)
Theorem fetch_status_open (parseURL : string -> option ModeA.URL)
    (request : ModeA.Request) (env : ModeA.Env) (now : Z) (w : World) :
  ModeA.method request = "GET" -> ModeA.pathname request = "/status" ->
  ModeA.fetch parseURL request env now w
  = (match fst (ModeA.getStatus w) with
     | Return status =>
         Return {| ModeA.status := 200; ModeA.body := ModeA.StatusJson status |}
     | Throw e => Throw e
     end, w).
Proof.
  intros Hm Hp. unfold ModeA.fetch. rewrite Hm, Hp. cbn.
  unfold mbind, DO_bind. rewrite getStatus_run. cbn.
  destruct (_ && _); reflexivity.
Qed.

Lemma fetch_status_open_witness :
  ModeA.fetch sampleURL status_request guarded_env 0 empty_world
  = (Return {| ModeA.status := 200;
               ModeA.body :=
                 ModeA.StatusJson
                   {| StatusResponse.lastWebhookAt := None;
                      StatusResponse.scheduledFor := None;
                      StatusResponse.lastBuildAt := None;
                      StatusResponse.lastBuildStatus := None;
                      StatusResponse.lastError := None;
                      StatusResponse.retryCount := Num 0;
                      StatusResponse.delayMs := None;
                      StatusResponse.webhookUrl := None |} |},
     empty_world).
Proof.
  apply (fetch_status_open sampleURL status_request guarded_env 0 empty_world);
    reflexivity.
Defined.

(** X17. The front door itself never sends a request, and the only change
    it ever makes to the object is a call of [queueBuild] with a target
    that parsed as http or https and a positive delay. *)
Theorem fetch_effects (parseURL : string -> option ModeA.URL)
    (request : ModeA.Request) (env : ModeA.Env) (now : Z) (w : World) :
  fetched (snd (ModeA.fetch parseURL request env now w)) = fetched w
  /\ (snd (ModeA.fetch parseURL request env now w) = w
      \/ exists s u d,
           parseURL s = Some u
           /\ (ModeA.protocol u = "http:" \/ ModeA.protocol u = "https:")
           /\ 0 < d
           /\ snd (ModeA.fetch parseURL request env now w)
              = snd (ModeA.queueBuild now (ModeA.href u) (Num d) w)).
Proof.
  assert (snd (ModeA.fetch parseURL request env now w) = w
          \/ exists s u d,
               parseURL s = Some u
               /\ (ModeA.protocol u = "http:" \/ ModeA.protocol u = "https:")
               /\ 0 < d
               /\ snd (ModeA.fetch parseURL request env now w)
                  = snd (ModeA.queueBuild now (ModeA.href u) (Num d) w)) as H.
  { unfold ModeA.fetch, ModeA.schedule.
    remember (ModeA.headers request !! "x-webhook-url") as url eqn:Hurl.
    remember (ModeA.headers request !! "x-delay-seconds") as delay eqn:Hdelay.
    destruct (String.eqb (ModeA.method request) "OPTIONS"); [left; reflexivity |].
    destruct (String.eqb (ModeA.method request) "GET"
              && String.eqb (ModeA.pathname request) "/status").
    { left. unfold mbind, DO_bind. rewrite getStatus_run.
      destruct (_ && _); reflexivity. }
    destruct (negb (String.eqb (ModeA.method request) "POST")); [left; reflexivity |].
    match goal with |- context [if ?b then _ else _] => destruct b end;
      [left; reflexivity |].
    destruct url as [s |]; simpl; [| left; reflexivity].
    destruct (String.eqb s ""); [left; reflexivity |].
    destruct (parseURL s) as [u |] eqn:Hp; [| left; reflexivity].
    destruct (String.eqb_spec (ModeA.protocol u) "http:") as [H1 | H1];
      destruct (String.eqb_spec (ModeA.protocol u) "https:") as [H2 | H2]; simpl;
      try (left; reflexivity);
      (destruct delay as [t |]; simpl; [| left; reflexivity];
       destruct (String.eqb t ""); [left; reflexivity |];
       destruct (parseInt t) as [| d] eqn:Hd; simpl; [left; reflexivity |];
       destruct (Z.leb_spec d 0); [left; reflexivity |];
       right; exists s, u, d; repeat split; auto;
       unfold mbind at 1; unfold DO_bind;
       destruct (ModeA.queueBuild now (ModeA.href u) (Num d) w) as [[r | e] w1];
         [| reflexivity];
       run; destruct (toISOString _); reflexivity). }
  split; [| exact H].
  destruct H as [-> | (s & u & d & _ & _ & _ & ->)]; [reflexivity |].
  now rewrite queueBuild_stores.
Qed.

(** ** Revision B *)

(** X18. The delay of revision B is 15 minutes when [BUILD_DELAY_SECONDS]
    is missing, empty, without a leading decimal integer or with one that
    is not positive; and for a positive leading integer whose product with
    1000 is a safe integer, it is that many seconds. *)
Theorem resolveDelayMs_cases (env : ModeB.Env) :
  ((ModeB.BUILD_DELAY_SECONDS env = None
    \/ ModeB.BUILD_DELAY_SECONDS env = Some ""
    \/ (exists raw, ModeB.BUILD_DELAY_SECONDS env = Some raw
                     /\ parseInt raw = NaN)
    \/ (exists raw parsed, ModeB.BUILD_DELAY_SECONDS env = Some raw
                            /\ parseInt raw = Num parsed /\ parsed <= 0)) ->
   ModeB.resolveDelayMs env = Num 900000)
  /\ (forall raw parsed,
        ModeB.BUILD_DELAY_SECONDS env = Some raw ->
        parseInt raw = Num parsed -> 0 < parsed ->
        parsed * 1000 <= MAX_SAFE_INTEGER ->
        ModeB.resolveDelayMs env = Num (parsed * 1000)).
Proof.
  unfold ModeB.resolveDelayMs. split.
  - intros [-> | [-> | [(raw & -> & Hp) | (raw & parsed & -> & Hp & Hle)]]];
      try reflexivity; cbn.
    + destruct (String.eqb raw ""); [reflexivity |]. now rewrite Hp.
    + destruct (String.eqb raw ""); [reflexivity |]. rewrite Hp. cbn.
      destruct (Z.leb_spec parsed 0); [reflexivity | lia].
  - intros raw parsed -> Hp Hpos _. cbn.
    destruct (String.eqb_spec raw "") as [-> | _]; [discriminate Hp |].
    rewrite Hp. cbn. destruct (Z.leb_spec parsed 0); [lia | reflexivity].
Qed.

Lemma resolveDelayMs_cases_witness :
  ModeB.resolveDelayMs configured = Num 60000
  /\ ModeB.resolveDelayMs unconfigured = Num 900000.
Proof.
  split.
  - apply (proj2 (resolveDelayMs_cases configured) "60" 60);
      first [reflexivity | lia | unfold MAX_SAFE_INTEGER; lia].
  - apply (proj1 (resolveDelayMs_cases unconfigured)). left. reflexivity.
Defined.

Lemma resolveTriggerMethod_cases (env : ModeB.Env) :
  ModeB.resolveTriggerMethod env = "GET" \/ ModeB.resolveTriggerMethod env = "POST".
Proof.
  unfold ModeB.resolveTriggerMethod.
  destruct (ModeB.BUILD_TRIGGER_METHOD env) as [m |]; cbn; [| now right].
  destruct (String.eqb (toUpperCase m) "GET"); [now left | now right].
Qed.

(** X19. One run of the [alarm] of revision B sends at most one request,
    only to [BUILD_WEBHOOK_URL] and only with the method GET or POST; it
    is GET exactly when [BUILD_TRIGGER_METHOD], upper-cased, reads GET. *)
Theorem alarm_B_sends (env : ModeB.Env) (now : Z) (reply : FetchOutcome)
    (w : World) :
  (ModeB.resolveTriggerMethod env = "GET"
   <-> toUpperCase <$> ModeB.BUILD_TRIGGER_METHOD env = Some "GET")
  /\ (fetched (snd (ModeB.alarm env now reply w)) = fetched w
      \/ exists url method,
           ModeB.BUILD_WEBHOOK_URL env = Some url /\ url <> ""
           /\ method = ModeB.resolveTriggerMethod env
           /\ (method = "GET" \/ method = "POST")
           /\ fetched (snd (ModeB.alarm env now reply w))
              = (fetched w ++ [(url, method)])%list).
Proof.
  split.
  - unfold ModeB.resolveTriggerMethod.
    destruct (ModeB.BUILD_TRIGGER_METHOD env) as [m |]; cbn.
    + destruct (String.eqb_spec (toUpperCase m) "GET") as [-> | Hne].
      * split; reflexivity.
      * split; [discriminate | intros [= H]; contradiction].
    + split; discriminate.
  - unfold ModeB.alarm. run. fold (stateOf w).
    destruct (falsy (scheduledFor (stateOf w))); [left; reflexivity |].
    destruct (falsy_string (ModeB.BUILD_WEBHOOK_URL env)) eqn:Hu;
      [left; reflexivity |].
    destruct (truthy_string _ Hu) as (url & Hurl & Hne).
    right. exists url, (ModeB.resolveTriggerMethod env).
    repeat split; try assumption; [apply resolveTriggerMethod_cases |].
    rewrite Hurl. cbn.
    destruct reply as [status | reason].
    + destruct (ok status); cbn; [reflexivity |].
      match goal with |- context [onFailure ?n ?s ?t ?v] =>
        change (fetched (snd (onFailure n s t v))
                = (fetched w ++ [(url, ModeB.resolveTriggerMethod env)])%list);
        rewrite (onFailure_world n s t v); destruct (truncateError t); reflexivity
      end.
    + match goal with |- context [onFailure ?n ?s ?t ?v] =>
        change (fetched (snd (onFailure n s t v))
                = (fetched w ++ [(url, ModeB.resolveTriggerMethod env)])%list);
        rewrite (onFailure_world n s t v); destruct (truncateError t); reflexivity
      end.
Qed.

(** X20. In revision B a POST request that passes the secret check is
    scheduled whatever else it carries: when the delay of the deployment
    is positive and the scheduled time within the range of the alarm, the
    record is stored with that delay and a retry count of 0, the alarm is
    armed, and the answer is 202 with the scheduled time and the delay in
    seconds. *)
Theorem fetch_B_schedules (request : ModeA.Request) (env : ModeB.Env)
    (now seconds : Z) (w : World) :
  ModeA.method request = "POST" ->
  falsy_string (ModeB.WEBHOOK_SECRET env) = true
  \/ providedSecret request = ModeB.WEBHOOK_SECRET env ->
  ModeB.resolveDelayMs env = Num (seconds * 1000) ->
  0 <= now -> 0 < seconds -> now + seconds * 1000 <= LAST_ALARM ->
  ModeB.fetch request env now w
  = (Return {| ModeB.status := 202;
               ModeB.body :=
                 ModeB.AcceptedJson (iso_format (now + seconds * 1000))
                   (Num seconds) |},
     {| storage :=
          Some (set_delayMs (Some (Num (seconds * 1000)))
                  (set_retryCount (Some (Num 0))
                     (set_scheduledFor (Some (Num (now + seconds * 1000)))
                        (set_lastWebhookAt (Some (Num now)) (stateOf w)))));
        alarmAt := Some (Num (now + seconds * 1000));
        fetched := fetched w |}).
Proof.
  intros Hm Ha Hd Hnow Hpos Hlast.
  pose proof (alarm_range_renderable now seconds Hnow Hpos Hlast) as Hrange.
  unfold ModeB.fetch. rewrite Hm.
  change (String.eqb "POST" "OPTIONS") with false.
  change (String.eqb "POST" "GET") with false.
  change (String.eqb "POST" "POST") with true.
  cbv beta iota zeta. unfold andb at 1. unfold negb at 1.
  fold (providedSecret request).
  assert (negb (falsy_string (ModeB.WEBHOOK_SECRET env))
          && negb (bool_decide (providedSecret request = ModeB.WEBHOOK_SECRET env))
          = false) as ->.
  { destruct Ha as [-> | ->]; [reflexivity |].
    rewrite bool_decide_eq_true_2 by reflexivity. apply andb_false_r. }
  unfold ModeB.queueBuild. run. fold (stateOf w). rewrite Hd. cbn.
  rewrite toISOString_in_range by assumption. cbn.
  rewrite toISOString_in_range by assumption.
  rewrite round_div_multiple by lia. reflexivity.
Qed.

Lemma fetch_B_schedules_witness :
  fst (ModeB.fetch
         {| ModeA.method := "POST"; ModeA.pathname := "/"; ModeA.headers := ∅;
            ModeA.searchParams := {[ "secret" := "s3cret" ]} |}
         configured 1762084800000 empty_world)
  = Return {| ModeB.status := 202;
              ModeB.body := ModeB.AcceptedJson "2025-11-02T12:01:00.000Z" (Num 60) |}.
Proof.
  rewrite (fetch_B_schedules
             {| ModeA.method := "POST"; ModeA.pathname := "/"; ModeA.headers := ∅;
                ModeA.searchParams := {[ "secret" := "s3cret" ]} |}
             configured 1762084800000 60 empty_world);
    first [reflexivity | right; reflexivity | unfold LAST_ALARM; lia].
Defined.

(** X21. The status of revision B is that of revision A without the
    target: on every world [getStatus] of B returns what [getStatus] of A
    returns, less [webhookUrl], throws when it throws, and changes
    nothing. *)
Theorem getStatus_B_agrees (w : World) :
  ModeB.getStatus w
  = (match fst (ModeA.getStatus w) with
     | Return status => Return (without_target status)
     | Throw e => Throw e
     end, w).
Proof.
  rewrite getStatus_run. unfold ModeB.getStatus. run. fold (stateOf w).
  rewrite !toIso_rendered.
  destruct (renderable (lastWebhookAt (stateOf w))); [| reflexivity].
  destruct (renderable (scheduledFor (stateOf w))); [| reflexivity].
  destruct (renderable (lastBuildAt (stateOf w))); reflexivity.
Qed.

(** ** How the operations compose *)

(** X22. A second fire after a successful execution does nothing: once
    [alarm] has succeeded on a pending record, any further [alarm],
    whatever the network would answer, returns without sending and
    without changing the world. *)
Theorem duplicate_fire_after_success (now status now' : Z)
    (reply' : FetchOutcome) (w : World) (url : string) :
  falsy (scheduledFor (stateOf w)) = false ->
  webhookUrl (stateOf w) = Some url -> url <> "" ->
  ok status = true ->
  let w1 := snd (ModeA.alarm now (Responded status) w) in
  ModeA.alarm now' reply' w1 = (Return tt, w1)
  /\ fetched w1 = (fetched w ++ [(url, "POST")])%list.
Proof.
  intros Hs Hu Hne Hok w1. subst w1.
  rewrite (alarm_success now status w url) by assumption. cbn [snd].
  split; [| reflexivity]. apply alarm_stale. reflexivity.
Qed.

Lemma duplicate_fire_after_success_witness :
  let w1 := snd (ModeA.alarm 60000 (Responded 200) (pending_world 3)) in
  ModeA.alarm 60001 (Responded 500) w1 = (Return tt, w1)
  /\ fetched w1 = [("https://example.com/build", "POST")].
Proof.
  apply (duplicate_fire_after_success 60000 200 60001 (Responded 500)
           (pending_world 3) "https://example.com/build");
    first [reflexivity | discriminate].
Defined.

(** X23. A new request restarts the backoff: whatever the retry count
    before [queueBuild], the first failed execution after it stores a
    retry count of 1 and arms the alarm one minute later. *)
Theorem queueBuild_restarts_backoff (now d now' status : Z) (url : string)
    (w : World) :
  url <> "" -> now + d * 1000 <> 0 -> ok status = false ->
  let w1 := snd (ModeA.queueBuild now url (Num d) w) in
  let w2 := deliver (ModeA.alarm now' (Responded status)) w1 in
  retryCount (stateOf w2) = Some (Num 1)
  /\ scheduledFor (stateOf w2) = Some (Num (now' + 60000))
  /\ alarmAt w2 = Some (Num (now' + 60000))
  /\ fetched w2 = (fetched w ++ [(url, "POST")])%list.
Proof.
  intros Hne Hnz Hok w1 w2. subst w2 w1.
  rewrite (deliver_failed now' status 0 _ url); try assumption.
  - rewrite queueBuild_stores. cbn. repeat split; reflexivity.
  - rewrite queueBuild_stores. unfold stateOf. cbn.
    destruct (Z.eqb_spec (now + d * 1000) 0); [contradiction | reflexivity].
  - now rewrite queueBuild_stores.
  - now rewrite queueBuild_stores.
  - lia.
Qed.

Lemma queueBuild_restarts_backoff_witness :
  let w1 := snd (ModeA.queueBuild 900000 "https://example.com/build" (Num 60)
                   (pending_world 7)) in
  let w2 := deliver (ModeA.alarm 960000 (Responded 502)) w1 in
  retryCount (stateOf w2) = Some (Num 1)
  /\ scheduledFor (stateOf w2) = Some (Num (960000 + 60000))
  /\ alarmAt w2 = Some (Num (960000 + 60000))
  /\ fetched w2 = [("https://example.com/build", "POST")].
Proof.
  apply (queueBuild_restarts_backoff 900000 60 960000 502
           "https://example.com/build" (pending_world 7));
    first [reflexivity | discriminate].
Defined.
